(** * llm-git-commit: the chat refinement session and the editor resolver

    A shallow embedding of [src/llm_git_commit/__init__.py]:
    - the Python string operations the code relies on ([str.strip],
      [str.lower], [str.find], slicing, [str.join]);
    - the marker extraction performed on a model reply inside
      [_chat_for_refinement];
    - one iteration of the [while True] loop of [_chat_for_refinement] and
      the loop itself, driven by the answers of the terminal and of the model;
    - [get_editor_from_env], [resolve_editor] and the editor selection of
      [git_commit_command].

    Characters are the code points below 256 (the type [ascii]); the
    whitespace and lower-case tables below are Python's restricted to that
    range. *)

From Stdlib Require Import String Ascii List Arith Lia Bool.
From stdpp Require Import gmap strings.
Import ListNotations.

(** ** Python string primitives *)

Module Py.

(** The line feed character, Python's ["\n"]. *)
Definition nl : string := String (ascii_of_nat 10) EmptyString.

(** [str.isspace] on one character: TAB..CR, FS..US, space, NEL, NBSP. *)
Definition isspace (c : ascii) : bool :=
  let n := nat_of_ascii c in
  ((9 <=? n) && (n <=? 13)) || ((28 <=? n) && (n <=? 32))
  || (n =? 133) || (n =? 160).

(** [str.lower] on one character: A..Z and the Latin-1 capitals
    (0xC0..0xDE without the multiplication sign 0xD7) move up by 32. *)
Definition lower_char (c : ascii) : ascii :=
  let n := nat_of_ascii c in
  if ((65 <=? n) && (n <=? 90))
     || ((192 <=? n) && (n <=? 222) && negb (n =? 215))
  then ascii_of_nat (n + 32)
  else c.

Fixpoint lower (s : string) : string :=
  match s with
  | EmptyString => EmptyString
  | String c s' => String (lower_char c) (lower s')
  end.

Fixpoint lstrip (s : string) : string :=
  match s with
  | EmptyString => EmptyString
  | String c s' => if isspace c then lstrip s' else s
  end.

Fixpoint rstrip (s : string) : string :=
  match s with
  | EmptyString => EmptyString
  | String c s' =>
      match rstrip s' with
      | EmptyString => if isspace c then EmptyString else String c EmptyString
      | r => String c r
      end
  end.

(** [s.strip()] *)
Definition strip (s : string) : string := rstrip (lstrip s).

(** Truth value of a string: [bool(s)], false exactly on the empty string. *)
Definition truthy (s : string) : bool :=
  match s with
  | EmptyString => false
  | String _ _ => true
  end.

(** Truth value of a [str | None]. *)
Definition truthy_opt (o : option string) : bool :=
  match o with
  | Some s => truthy s
  | None => false
  end.

(** [s.find(sub, start)], with [None] for Python's [-1]. *)
Definition find (s sub : string) (start : nat) : option nat :=
  String.index start sub s.

(** [s[:j]], [s[i:j]] and [s[i:]] for indices that are not negative. *)
Definition slice_to (s : string) (j : nat) : string := String.substring 0 j s.
Definition slice (s : string) (i j : nat) : string := String.substring i (j - i) s.
Definition slice_from (s : string) (i : nat) : string :=
  String.substring i (String.length s - i) s.

(** [sep.join(parts)] *)
Definition join (sep : string) (parts : list string) : string :=
  String.concat sep parts.

(** [a or b] on two [str | None] values. *)
Definition or_else (a b : option string) : option string :=
  if truthy_opt a then a else b.

End Py.

(** ** Marker extraction *)

Definition PROPOSED_COMMIT_MARKER_START : string := "PROPOSED_COMMIT_MESSAGE_START".
Definition PROPOSED_COMMIT_MARKER_END : string := "PROPOSED_COMMIT_MESSAGE_END".

(** The three values the extraction leaves behind for the rest of the turn.
    ([last_marker_proposal_text] is assigned alongside but never read, so it
    has no counterpart here.) *)
Record parsed_response := {
  conversational_parts_to_print : list string;
  extracted_proposal_text : option string;
  conversational_text_for_history_if_proposal_rejected : string
}.

(** The extraction itself: the two [find] calls and the two branches that
    follow them. *)
Definition parse (llm_full_response_text : string) : parsed_response :=
  let start_marker_idx :=
    Py.find llm_full_response_text PROPOSED_COMMIT_MARKER_START 0 in
  let end_marker_idx :=
    match start_marker_idx with
    | Some si =>
        Py.find llm_full_response_text PROPOSED_COMMIT_MARKER_END
                (si + String.length PROPOSED_COMMIT_MARKER_START)
    | None => None
    end in
  match start_marker_idx, end_marker_idx with
  | Some si, Some ei =>
      let conv_before := Py.strip (Py.slice_to llm_full_response_text si) in
      let proposal_start_content_idx :=
        si + String.length PROPOSED_COMMIT_MARKER_START in
      let temp_extracted :=
        Py.strip (Py.slice llm_full_response_text proposal_start_content_idx ei) in
      let conv_after :=
        Py.strip (Py.slice_from llm_full_response_text
                    (ei + String.length PROPOSED_COMMIT_MARKER_END)) in
      {| conversational_parts_to_print :=
           (if Py.truthy conv_before then [conv_before] else [])
           ++ (if Py.truthy conv_after then [conv_after] else []);
         extracted_proposal_text :=
           if Py.truthy temp_extracted then Some temp_extracted else None;
         conversational_text_for_history_if_proposal_rejected :=
           Py.strip (Py.join Py.nl (List.filter Py.truthy
                                                   [conv_before; conv_after])) |}
  | _, _ =>
      {| conversational_parts_to_print := [Py.strip llm_full_response_text];
         extracted_proposal_text := None;
         conversational_text_for_history_if_proposal_rejected :=
           Py.strip llm_full_response_text |}
  end.

(** ** The refinement session *)

Inductive role := system | user | assistant.

(** One entry of [chat_history] or of [messages_for_llm]. *)
Record chat_message := { msg_role : role; msg_content : string }.

(** [CHAT_REFINEMENT_SYSTEM_PROMPT_TEMPLATE] has two placeholders, each used
    once: the diff and, after it, the current draft. Its fixed text holds
    quotation marks and is taken as three pieces. *)
Record prompt_template := {
  text_before_diff : string;
  text_between : string;
  text_after_draft : string
}.

(** The mutable locals of [_chat_for_refinement] that survive an iteration. *)
Record chat_state := {
  chat_history : list chat_message;
  message_being_refined_in_chat : string
}.

(** What the session shows. [Say] is one [print_styled] call (the texts of
    its fragments joined), [EachLine t] the loop printing every line of
    [t.splitlines()], [Rule] the separator [print_formatted_text("---")]. *)
Inductive output :=
| Say (text : string)
| EachLine (text : string)
| Rule.

(** The ways [PromptSession.prompt_async] comes back. *)
Inductive prompt_result :=
| Entered (text : string)
| ReturnedNone
| RaisedKeyboardInterrupt
| RaisedEOFError.

(** The model call together with the extraction of the reply text: a text,
    or an [Exception] whose [str()] is [error]. *)
Inductive model_result :=
| Responded (text : string)
| Failed (error : string).

(** What the outside world answers during one iteration of the loop: the
    line read at the chat prompt, the model's answer to the messages sent,
    and the answer to the yes/no prompt (an iteration asks at most one). An
    answer the iteration does not ask for is not looked at. *)
Record turn_env := {
  chat_prompt : prompt_result;
  model_call : list chat_message -> model_result;
  confirm_prompt : prompt_result
}.

(** Exceptions that leave [_chat_for_refinement]. *)
Inductive escaped := KeyboardInterrupt | EOFError | AttributeError.

(** How an iteration ends: [continue] (or falling off the loop body) with
    the new locals, [return], or an exception nothing catches. *)
Inductive control :=
| Continue (st : chat_state)
| Return (result : string)
| Raise (e : escaped).

(** How the commands of the chat prompt are told apart. *)
Inductive command :=
| Cancel
| Apply
| ChatQuery (cleaned_user_query : string).

Definition get_current_chat_system_prompt
    (tpl : prompt_template) (original_diff : string) (st : chat_state) : string :=
  text_before_diff tpl +:+ original_diff +:+ text_between tpl
  +:+ message_being_refined_in_chat st +:+ text_after_draft tpl.

(** The [try]/[except] around [chat_session.prompt_async()] and the [None]
    check after it: the value of [user_input_from_prompt] and what is shown. *)
Definition read_user_input (r : prompt_result) : string * list output :=
  match r with
  | Entered text => (text, [])
  | ReturnedNone => ("/cancel", [])
  | RaisedKeyboardInterrupt => ("/cancel", [])
  | RaisedEOFError => ("/cancel", [Say "(Ctrl+D treated as /cancel)"])
  end.

(** [cleaned_user_query] after the empty-input rule, and what is shown. *)
Definition clean_user_query (user_input_from_prompt : string) : string * list output :=
  let cleaned_user_query := Py.strip user_input_from_prompt in
  if negb (Py.truthy cleaned_user_query)
     && negb (String.eqb user_input_from_prompt "/apply")
  then ("/cancel", [Say "(Empty input treated as /cancel)"])
  else (cleaned_user_query, []).

(** The echo of the query. *)
Definition echo_user_query (user_input_from_prompt cleaned_user_query : string)
  : list output :=
  if negb (String.eqb (Py.lower cleaned_user_query) "/apply")
     || String.eqb user_input_from_prompt "/apply"
  then [Say ("You: " +:+ (if Py.truthy cleaned_user_query then cleaned_user_query
                          else "(Action via Keybinding / Empty)"))]
  else [].

(** The [if]/[elif]/[else] on [cleaned_user_query.lower()]. *)
Definition dispatch (cleaned_user_query : string) : command :=
  if String.eqb (Py.lower cleaned_user_query) "/cancel" then Cancel
  else if String.eqb (Py.lower cleaned_user_query) "/apply" then Apply
  else ChatQuery cleaned_user_query.

(** The command a result of the chat prompt stands for. *)
Definition classify (r : prompt_result) : command :=
  dispatch (fst (clean_user_query (fst (read_user_input r)))).

(** [await temp_session.prompt_async()] at a yes/no prompt, outside any
    [try]: an interrupt or end of input propagates, and [None] fails at the
    [.lower()] that follows. *)
Definition await_confirmation (r : prompt_result) : escaped + string :=
  match r with
  | Entered text => inr text
  | ReturnedNone => inl AttributeError
  | RaisedKeyboardInterrupt => inl KeyboardInterrupt
  | RaisedEOFError => inl EOFError
  end.

(** The end of the chat branch: the assistant's entry goes to the history
    when it is not empty or when the reply was blank, and the turn closes
    with the separator. *)
Definition record_assistant_response
    (chat_history' : list chat_message) (draft : string)
    (assistant_response_for_history llm_full_response_text : string)
    (shown : list output) : list output * control :=
  let chat_history'' :=
    if Py.truthy assistant_response_for_history
       || negb (Py.truthy (Py.strip llm_full_response_text))
    then chat_history'
         ++ [{| msg_role := assistant; msg_content := assistant_response_for_history |}]
    else chat_history' in
  (shown ++ [Rule],
   Continue {| chat_history := chat_history'';
               message_being_refined_in_chat := draft |}).

(** The [try]/[except] of the chat branch: what is shown, the value of
    [llm_full_response_text], and the three values the extraction (or the
    blank-reply and error paths) leave behind. *)
Definition ask_model (reply : model_result)
  : list output * string * parsed_response :=
  match reply with
  | Responded llm_full_response_text =>
      if negb (Py.truthy (Py.strip llm_full_response_text))
      then ([Say "LLM thinking..."; Say "LLM:"; Say "(LLM returned no text)"],
            llm_full_response_text,
            {| conversational_parts_to_print := [];
               extracted_proposal_text := None;
               conversational_text_for_history_if_proposal_rejected := "" |})
      else
        let p := parse llm_full_response_text in
        ([Say "LLM thinking..."; Say "LLM:"]
         ++ map EachLine (List.filter Py.truthy (conversational_parts_to_print p)),
         llm_full_response_text, p)
  | Failed e =>
      ([Say "LLM thinking..."; Say (Py.nl +:+ "LLM Error: " +:+ e)],
       "",
       {| conversational_parts_to_print := [];
          extracted_proposal_text := None;
          conversational_text_for_history_if_proposal_rejected :=
            "(LLM Error: " +:+ e +:+ ")" |})
  end.

(** [messages_for_llm]: the system prompt built from the diff and the
    current draft, then the history, which by now ends with the query. (A
    model without [chat] is given the same history as one formatted text and
    the same system prompt.) *)
Definition messages_for_llm
    (tpl : prompt_template) (original_diff : string)
    (st : chat_state) (cleaned_user_query : string) : list chat_message :=
  {| msg_role := system;
     msg_content := get_current_chat_system_prompt tpl original_diff st |}
  :: chat_history st ++ [{| msg_role := user; msg_content := cleaned_user_query |}].

(** The chat branch: a regular query is sent to the model. *)
Definition chat_branch
    (tpl : prompt_template) (original_diff : string)
    (env : turn_env) (st : chat_state) (cleaned_user_query : string)
    (shown : list output) : list output * control :=
  let chat_history' :=
    chat_history st ++ [{| msg_role := user; msg_content := cleaned_user_query |}] in
  let '(shown_try, llm_full_response_text, p) :=
    ask_model (model_call env
                 (messages_for_llm tpl original_diff st cleaned_user_query)) in
  let shown := shown ++ shown_try in
  let draft := message_being_refined_in_chat st in
  let no_proposal :=
    record_assistant_response chat_history' draft
      (conversational_text_for_history_if_proposal_rejected p)
      llm_full_response_text shown in
  match extracted_proposal_text p with
  | None => no_proposal
  | Some proposal =>
      if negb (Py.truthy proposal) then no_proposal
      else
        let shown :=
          shown ++ [Rule; Say "LLM Proposes Update to Draft:";
                    EachLine proposal; Rule] in
        match await_confirmation (confirm_prompt env) with
        | inl e => (shown, Raise e)
        | inr acceptance =>
            if String.eqb (Py.strip (Py.lower acceptance)) "y"
               || negb (Py.truthy (Py.strip acceptance))
            then
              record_assistant_response
                (chat_history'
                 ++ [{| msg_role := user;
                        msg_content := "(User accepted LLM's proposal to update draft)" |}])
                proposal proposal llm_full_response_text
                (shown ++ [Say "Proposal accepted. Current draft updated."])
            else
              record_assistant_response chat_history' draft
                (if Py.truthy (conversational_text_for_history_if_proposal_rejected p)
                 then conversational_text_for_history_if_proposal_rejected p
                 else "(LLM made a proposal which was rejected by the user.)")
                llm_full_response_text
                (shown ++ [Say "Proposal rejected. Current draft remains unchanged."])
        end
  end.

(** The [/apply] branch. *)
Definition apply_branch (env : turn_env) (st : chat_state) (shown : list output)
  : list output * control :=
  let shown := shown ++ [Say "Preparing to apply current draft..."] in
  let final_message_to_apply := message_being_refined_in_chat st in
  if negb (Py.truthy (Py.strip final_message_to_apply))
  then (shown ++ [Say "Current draft is empty. Cannot apply."; Rule], Continue st)
  else
    let shown :=
      shown ++ [Say "This is the current draft that will be applied:";
                EachLine final_message_to_apply; Rule] in
    match await_confirmation (confirm_prompt env) with
    | inl e => (shown, Raise e)
    | inr confirmation =>
        if String.eqb (Py.strip (Py.lower confirmation)) "y"
           || negb (Py.truthy (Py.strip confirmation))
        then (shown ++ [Say "--- Current draft confirmed. Returning to editor. ---"],
              Return final_message_to_apply)
        else (shown ++ [Say "/apply action discarded by user. Continuing chat."; Rule],
              Continue st)
    end.

(** One iteration of the [while True] loop. *)
Definition chat_turn
    (tpl : prompt_template) (initial_commit_draft original_diff : string)
    (st : chat_state) (env : turn_env) : list output * control :=
  let user_input_from_prompt := fst (read_user_input (chat_prompt env)) in
  let cleaned_user_query := fst (clean_user_query user_input_from_prompt) in
  let shown :=
    [Say (Py.nl +:+ "Current Draft being refined in chat:");
     EachLine (message_being_refined_in_chat st); Rule]
    ++ snd (read_user_input (chat_prompt env))
    ++ snd (clean_user_query user_input_from_prompt)
    ++ echo_user_query user_input_from_prompt cleaned_user_query in
  match dispatch cleaned_user_query with
  | Cancel =>
      (shown ++ [Say (Py.nl +:+ "Chat cancelled. Returning original draft.")],
       Return initial_commit_draft)
  | Apply => apply_branch env st shown
  | ChatQuery q => chat_branch tpl original_diff env st q shown
  end.

(** How far a session got on the answers it was given: it returned, an
    exception left it, or it waits at the chat prompt for more input. *)
Inductive outcome :=
| Returned (result : string)
| Raised (e : escaped)
| Prompting (st : chat_state).

(** The [while True] loop, one [turn_env] per iteration. *)
Fixpoint chat_loop
    (tpl : prompt_template) (initial_commit_draft original_diff : string)
    (st : chat_state) (envs : list turn_env) : list output * outcome :=
  match envs with
  | [] => ([], Prompting st)
  | env :: envs' =>
      match chat_turn tpl initial_commit_draft original_diff st env with
      | (shown, Continue st') =>
          let '(shown', o) :=
            chat_loop tpl initial_commit_draft original_diff st' envs' in
          (shown ++ shown', o)
      | (shown, Return result) => (shown, Returned result)
      | (shown, Raise e) => (shown, Raised e)
      end
  end.

(** The state the loop starts from. *)
Definition initial_state (initial_commit_draft : string) : chat_state :=
  {| chat_history := []; message_being_refined_in_chat := initial_commit_draft |}.

(** [_chat_for_refinement]: the banner, then the loop. *)
Definition chat_for_refinement
    (tpl : prompt_template) (initial_commit_draft original_diff : string)
    (envs : list turn_env) : list output * outcome :=
  let banner :=
    [Say (Py.nl +:+ "--- Chat Session Started ---");
     Say "LLM considers original diff & the initial draft context.";
     Say (Py.nl +:+ "Reference: Initial Draft (when chat started):");
     EachLine initial_commit_draft; Rule] in
  let '(shown, o) :=
    chat_loop tpl initial_commit_draft original_diff
              (initial_state initial_commit_draft) envs in
  (banner ++ shown, o).

(** ** Editor resolution *)

(** [subprocess.run(["git", "config", "core.editor"], ...)]: the process ran
    and left a return code and its standard output, or [git] is missing
    ([FileNotFoundError]). *)
Inductive git_config_run :=
| Completed (returncode : Z) (stdout : string)
| GitNotFound.

(** What [get_editor_from_env] looks at. *)
Record process_env := {
  environ : gmap string string;
  git_config_core_editor : git_config_run
}.

Definition get_editor_from_env (env : process_env) : option string :=
  let editor := environ env !! "LLM_GIT_COMMIT_EDITOR" in
  if Py.truthy_opt editor then editor
  else
    let standard := Py.or_else (environ env !! "VISUAL") (environ env !! "EDITOR") in
    match git_config_core_editor env with
    | Completed returncode stdout =>
        if (returncode =? 0)%Z && Py.truthy (Py.strip stdout)
        then Some (Py.strip stdout)
        else standard
    | GitNotFound => standard
    end.

(** [resolve_editor(config, use_external_flag)]: the pair of the mode and of
    the editor command. *)
Definition resolve_editor
    (config : gmap string string) (use_external_flag : bool) (env : process_env)
  : string * option string :=
  let editor_config := default "internal" (config !! "editor") in
  let editor_config :=
    if use_external_flag && String.eqb editor_config "internal"
    then "env" else editor_config in
  if String.eqb editor_config "internal" then ("internal", None)
  else if String.eqb editor_config "env" then
    let env_editor := get_editor_from_env env in
    if Py.truthy_opt env_editor then ("env", env_editor)
    else ("internal", None)
  else ("command", Some editor_config).

(** The editor choice of [git_commit_command]. [editor_override] is the
    value of the option [-e/--editor]: [None] when it is absent, ["env"]
    when it is given without a value ([flag_value]), the value otherwise. *)
Definition determine_editor_mode
    (config : gmap string string) (editor_override : option string)
    (env : process_env) : string * option string :=
  match editor_override with
  | Some override =>
      if Py.truthy override then
        if String.eqb override "env" then ("env", get_editor_from_env env)
        else if String.eqb override "internal" then ("internal", None)
        else ("command", Some override)
      else resolve_editor config false env
  | None => resolve_editor config false env
  end.

(** Where the message is edited in the end. *)
Inductive editing_surface :=
| BuiltInEditor
| ExternalEditor (editor_cmd : string)
| BuiltInEditorAfterWarning.

(** The [if]/[elif]/[else] on [editor_mode] and [editor_cmd] that follows
    the choice. *)
Definition editing_surface_of (choice : string * option string) : editing_surface :=
  let '(editor_mode, editor_cmd) := choice in
  if String.eqb editor_mode "internal" then BuiltInEditor
  else
    match editor_cmd with
    | Some cmd => if Py.truthy cmd then ExternalEditor cmd
                  else BuiltInEditorAfterWarning
    | None => BuiltInEditorAfterWarning
    end.

(** ** The history as one text *)

(** [msg['role'].capitalize()] on the three roles. *)
Definition capitalized_role (r : role) : string :=
  match r with
  | system => "System"
  | user => "User"
  | assistant => "Assistant"
  end.

(** [_format_chat_history_for_prompt], the text a model without [chat] is
    prompted with. *)
Definition format_chat_history_for_prompt (chat_history : list chat_message)
  : string :=
  match chat_history with
  | [] => "No conversation history yet."
  | _ =>
      Py.join Py.nl
        (map (fun msg => capitalized_role (msg_role msg) +:+ ": " +:+ msg_content msg)
             chat_history)
  end.

(** ** The diff handed to the model *)

Definition DEFAULT_MAX_CHARS : Z := 15000.

(** Truth value of an [int | None]. *)
Definition truthy_int (o : option Z) : bool :=
  match o with
  | Some n => negb (n =? 0)%Z
  | None => false
  end.

(** [max_chars_override or config.get("max-chars") or DEFAULT_MAX_CHARS] *)
Definition resolve_max_chars (max_chars_override config_max_chars : option Z) : Z :=
  match max_chars_override with
  | Some n =>
      if negb (n =? 0)%Z then n
      else match config_max_chars with
           | Some m => if negb (m =? 0)%Z then m else DEFAULT_MAX_CHARS
           | None => DEFAULT_MAX_CHARS
           end
  | None =>
      match config_max_chars with
      | Some m => if negb (m =? 0)%Z then m else DEFAULT_MAX_CHARS
      | None => DEFAULT_MAX_CHARS
      end
  end.

(** [s[:n]] for any integer [n]: a negative [n] counts from the end. *)
Definition slice_to_int (s : string) (n : Z) : string :=
  if (0 <=? n)%Z then Py.slice_to s (Z.to_nat n)
  else Py.slice_to s (Z.to_nat (Z.of_nat (String.length s) + n)).

Definition truncation_note : string :=
  Py.nl +:+ Py.nl +:+ "... [diff truncated]".

(** The truncation of [git_commit_command]: whether the warning is shown,
    and the diff that goes on. *)
Definition truncate_diff (diff_output : string) (max_chars : Z) : bool * string :=
  if (Z.of_nat (String.length diff_output) >? max_chars)%Z
  then (true, slice_to_int diff_output max_chars +:+ truncation_note)
  else (false, diff_output).

(** ** The external editor *)

(** The line boundaries of [str.splitlines] below 256: LF, VT, FF, CR, FS,
    GS, RS and NEL. *)
Definition is_line_boundary (c : ascii) : bool :=
  let n := nat_of_ascii c in
  ((10 <=? n) && (n <=? 13)) || ((28 <=? n) && (n <=? 30)) || (n =? 133).

(** [s.splitlines()]: the lines without their boundaries, CR LF being one
    boundary; a boundary at the very end opens no further line. *)
Fixpoint splitlines (s : string) : list string :=
  match s with
  | EmptyString => []
  | String c s' =>
      if is_line_boundary c then
        EmptyString ::
          match s' with
          | String d s'' =>
              if (nat_of_ascii c =? 13) && (nat_of_ascii d =? 10)
              then splitlines s'' else splitlines s'
          | EmptyString => []
          end
      else
        match splitlines s' with
        | [] => [String c EmptyString]
        | line :: lines => String c line :: lines
        end
  end.

(** [line.startswith(prefix)] *)
Definition startswith (line prefix : string) : bool := String.prefix prefix line.

(** The help text written below the message. *)
Definition help_text : string :=
  Py.nl +:+ "# Edit your commit message above." +:+ Py.nl
  +:+ "# Lines starting with '#' will be ignored." +:+ Py.nl
  +:+ "# Save and close the editor to proceed." +:+ Py.nl
  +:+ "# Leave the message empty to cancel the commit." +:+ Py.nl.

(** What the editor process does with the temporary file: it cannot be
    started ([subprocess.run] raises), or it exits with a return code and
    leaves the file with [content]. *)
Inductive editor_session :=
| EditorNotLaunched
| EditorExited (returncode : Z) (content : string).

(** What [edit_with_external_editor] comes back with. *)
Inductive edit_outcome :=
| EditReturned (edited_text : option string)
| EditRaised.

(** The text left of the file's content: the lines that do not start with
    [#], joined and trimmed. *)
Definition without_comment_lines (content : string) : string :=
  Py.strip (Py.join Py.nl
              (List.filter (fun line => negb (startswith line "#"))
                           (splitlines content))).

(** [edit_with_external_editor]: the return code echoed (if any) and the
    outcome. The temporary file holds the text, a line feed and the help
    text; [run_editor] is the editor process started on it. The file is
    removed on every path and has no counterpart here. *)
Definition edit_with_external_editor
    (initial_text : string) (run_editor : string -> editor_session)
  : option Z * edit_outcome :=
  match run_editor (initial_text +:+ Py.nl +:+ help_text) with
  | EditorNotLaunched => (None, EditRaised)
  | EditorExited returncode content =>
      if negb (returncode =? 0)%Z then (Some returncode, EditReturned None)
      else
        let edited_text := without_comment_lines content in
        (None, EditReturned (if Py.truthy edited_text then Some edited_text
                             else None))
  end.

(** ** Prompt styles *)

Definition DEFAULT_PROMPT_STYLE : string := "conventional".

Definition BUILTIN_PROMPT_STYLES : list (string * string) :=
  [("conventional", "Conventional Commits format (feat:, fix:, etc.) [Default]");
   ("detailed", "Detailed multi-paragraph messages with context");
   ("minimal", "Short single-line messages only");
   ("semantic", "Semantic commits with scope: type(scope): description");
   ("gitmoji", "Gitmoji-style with emoji prefixes");
   ("custom", "Editable custom prompt - edit prompts/custom.txt to customize")].

Definition DEFAULT_GIT_COMMIT_SYSTEM_PROMPT : string :=
  "You are an expert programmer tasked with writing a concise and conventional git commit message."
  +:+ Py.nl
  +:+ "Analyze the provided 'git diff' output and create a commit message following Conventional Commits format."
  +:+ Py.nl
  +:+ "Use type prefixes: feat, fix, docs, style, refactor, test, chore."
  +:+ Py.nl
  +:+ "Subject line under 50 characters, imperative mood."
  +:+ Py.nl
  +:+ "Optional body explaining what and why (not how)."
  +:+ Py.nl
  +:+ "Return ONLY the commit message text, nothing else.".

(** The prompt files: the text of [PROMPTS_DIR/<name>.txt] by name, and the
    text of the package's [prompts/<name>.txt] by name, or nothing when the
    package resources cannot be reached. Paths are POSIX paths and a name
    with a separator stands for a file in another directory. Reading and
    writing a file that is there does not fail. *)
Record prompt_store := {
  prompts_dir : gmap string string;
  package_prompts : option (gmap string string)
}.

Definition get_prompt_content (store : prompt_store) (prompt_name : string)
  : option string :=
  match prompts_dir store !! prompt_name with
  | Some text => Some (Py.strip text)
  | None =>
      match package_prompts store with
      | Some package =>
          match package !! prompt_name with
          | Some text => Some (Py.strip text)
          | None => None
          end
      | None => None
      end
  end.

(** One round of the loop of [ensure_prompts_installed]. *)
Definition install_prompt
    (package : gmap string string) (dir : gmap string string)
    (style_name : string) : gmap string string :=
  match dir !! style_name with
  | Some _ => dir
  | None =>
      match package !! style_name with
      | Some text => <[style_name := text]> dir
      | None => dir
      end
  end.

Definition ensure_prompts_installed (store : prompt_store) : prompt_store :=
  match package_prompts store with
  | Some package =>
      {| prompts_dir :=
           foldl (install_prompt package) (prompts_dir store)
                 (map fst BUILTIN_PROMPT_STYLES);
         package_prompts := Some package |}
  | None => store
  end.

(** [list_available_prompts]: the built-in styles that have a text, then
    the files of the directory whose stem is not listed yet. *)
Definition add_builtin_style
    (store : prompt_store) (available : gmap string string)
    (style : string * string) : gmap string string :=
  let '(name, desc) := style in
  if Py.truthy_opt (get_prompt_content store name)
  then <[name := desc]> available else available.

(** [prompt_file.stem] for the files [PROMPTS_DIR.glob("*.txt")] finds, by
    the prompt name a file is read under: the file of a name with a path
    separator lies in another directory and is not found; the file of the
    empty name is called [.txt], which has no suffix and is its own stem;
    any other name is the stem of its file. *)
Definition glob_stem (prompt_name : string) : option string :=
  match Py.find prompt_name "/" 0 with
  | Some _ => None
  | None => if Py.truthy prompt_name then Some prompt_name else Some ".txt"
  end.

(** The stems of the files found in the prompts directory. *)
Definition globbed_stems (store : prompt_store) : gset string :=
  set_omap glob_stem (dom (prompts_dir store)).

Definition list_available_prompts (store : prompt_store) : gmap string string :=
  let available := foldl (add_builtin_style store) ∅ BUILTIN_PROMPT_STYLES in
  available
  ∪ set_to_map (fun name => (name, "Custom prompt: " +:+ name))
               (globbed_stems store).

(** What [get_system_prompt] comes back with: the prompt, or the
    [ValueError] for a style that was asked for and not found. *)
Inductive system_prompt_outcome :=
| SystemPrompt (text : string)
| PromptStyleNotFound (prompt_style : string).

Definition get_system_prompt
    (store : prompt_store) (config : gmap string string)
    (prompt_style_override system_override : option string)
  : system_prompt_outcome :=
  let default_prompt :=
    match get_prompt_content store DEFAULT_PROMPT_STYLE with
    | Some content =>
        if Py.truthy content then SystemPrompt content
        else SystemPrompt DEFAULT_GIT_COMMIT_SYSTEM_PROMPT
    | None => SystemPrompt DEFAULT_GIT_COMMIT_SYSTEM_PROMPT
    end in
  let from_key (key : string) (otherwise : system_prompt_outcome) :=
    match config !! key with
    | Some style =>
        if Py.truthy style then
          match get_prompt_content store style with
          | Some content =>
              if Py.truthy content then SystemPrompt content else otherwise
          | None => otherwise
          end
        else otherwise
    | None => otherwise
    end in
  let from_config := from_key "prompt" (from_key "prompt-style" default_prompt) in
  let from_style :=
    match prompt_style_override with
    | Some style =>
        if Py.truthy style then
          match get_prompt_content store style with
          | Some content =>
              if Py.truthy content then SystemPrompt content
              else PromptStyleNotFound style
          | None => PromptStyleNotFound style
          end
        else from_config
    | None => from_config
    end in
  match system_override with
  | Some text => if Py.truthy text then SystemPrompt text else from_style
  | None => from_style
  end.

(** ** The [config] subcommand *)

(** The configuration file as [load_config] reads it: the settings that
    are texts by key ([model], [prompt], [editor] and the legacy keys), and
    the number under [max-chars]. *)
Record config_data := {
  settings : gmap string string;
  max_chars_setting : option Z
}.

(** The options of the subcommand. *)
Record config_options := {
  view : bool;
  reset : bool;
  model_config : option string;
  prompt_config : option string;
  editor_config : option string;
  max_chars_config : option Z;
  show_prompt : bool
}.

(** What the subcommand does in the end, what it prints left aside: it
    shows the configuration, shows the prompt, removes the file or leaves
    it after the question, refuses a prompt style without text, writes the
    file with [save_config], or shows the help. *)
Inductive config_action :=
| ShowView
| ShowPrompt
| ResetConfig
| CancelReset
| RejectPrompt (prompt_name : string)
| SaveConfig (saved : config_data)
| ShowHelp.

(** The [if editor_config is not None] block: the value stored under
    [editor]. *)
Definition editor_setting (editor_config : string) : string :=
  let editor_val := Py.lower editor_config in
  if String.eqb editor_val "internal" then "internal"
  else if String.eqb editor_val "env" then "env"
  else editor_config.

(** [config_command]: [config] is what [load_config] returned and
    [confirm_reset] the answer to the question before a reset. *)
Definition config_command
    (store : prompt_store) (config : config_data) (options : config_options)
    (confirm_reset : bool) : config_action :=
  let store := ensure_prompts_installed store in
  let no_options :=
    negb (reset options
          || Py.truthy_opt (model_config options)
          || Py.truthy_opt (prompt_config options)
          || Py.truthy_opt (editor_config options)
          || truthy_int (max_chars_config options)
          || show_prompt options) in
  if view options || no_options then ShowView
  else if show_prompt options then ShowPrompt
  else if reset options then
    if confirm_reset then ResetConfig else CancelReset
  else
    let '(config, updates_made) :=
      match model_config options with
      | Some model =>
          ({| settings := <["model" := model]> (settings config);
              max_chars_setting := max_chars_setting config |}, true)
      | None => (config, false)
      end in
    let after_prompt :=
      match prompt_config options with
      | Some prompt =>
          if negb (Py.truthy_opt (get_prompt_content store prompt)) then inl prompt
          else
            inr ({| settings :=
                      delete "system"
                        (delete "prompt-style"
                           (<["prompt" := prompt]> (settings config)));
                    max_chars_setting := max_chars_setting config |}, true)
      | None => inr (config, updates_made)
      end in
    match after_prompt with
    | inl prompt => RejectPrompt prompt
    | inr (config, updates_made) =>
        let '(config, updates_made) :=
          match editor_config options with
          | Some editor =>
              ({| settings := <["editor" := editor_setting editor]> (settings config);
                  max_chars_setting := max_chars_setting config |}, true)
          | None => (config, updates_made)
          end in
        let '(config, updates_made) :=
          match max_chars_config options with
          | Some max_chars =>
              ({| settings := settings config;
                  max_chars_setting := Some max_chars |}, true)
          | None => (config, updates_made)
          end in
        if updates_made then SaveConfig config else ShowHelp
    end.

(** * Properties *)

(** ** Facts about the string primitives *)

(** [sub] is read in [s] at index [k]. *)
Definition occurs_at (sub s : string) (k : nat) : Prop :=
  String.substring k (String.length sub) s = sub.

(** [i] is the first index from [start] on at which [sub] is read in [s]. *)
Definition first_occurrence (sub s : string) (start i : nat) : Prop :=
  start <= i /\ occurs_at sub s i
  /\ forall k, start <= k -> k < i -> ~ occurs_at sub s k.

(** Every character of [s] is whitespace. *)
Fixpoint all_space (s : string) : bool :=
  match s with
  | EmptyString => true
  | String c s' => Py.isspace c && all_space s'
  end.

(** The answers both yes/no prompts take for a yes: [y] in either case, or
    nothing, whitespace around them aside. *)
Definition answers_yes (answer : string) : Prop :=
  Py.strip (Py.lower answer) = "y" \/ Py.strip answer = "".

(** The cancellation triggers at the chat prompt: the [/cancel] token in any
    case, an interrupt, the end of input. *)
Inductive cancel_trigger : prompt_result -> Prop :=
| cancel_token text :
    Py.lower (Py.strip text) = "/cancel" -> cancel_trigger (Entered text)
| cancel_interrupt : cancel_trigger RaisedKeyboardInterrupt
| cancel_end_of_input : cancel_trigger RaisedEOFError.

(** What an iteration has shown when it reaches the chat branch with the
    query [q]. *)
Definition shown_before_chat (st : chat_state) (q : string) : list output :=
  [Say (Py.nl +:+ "Current Draft being refined in chat:");
   EachLine (message_being_refined_in_chat st); Rule;
   Say ("You: " +:+ q)].

(** A command setting: neither empty nor one of the two mode names. *)
Definition is_command (c : string) : Prop :=
  c <> "" /\ c <> "env" /\ c <> "internal".

(** The state an accepted proposal leaves. *)
Definition accepted (st : chat_state) (q P : string) : chat_state :=
  {| chat_history :=
       chat_history st
       ++ [{| msg_role := user; msg_content := q |};
           {| msg_role := user;
              msg_content := "(User accepted LLM's proposal to update draft)" |};
           {| msg_role := assistant; msg_content := P |}];
     message_being_refined_in_chat := P |}.

(** The state a rejected proposal leaves, [conv] being the conversational
    text of the reply. *)
Definition rejected (st : chat_state) (q conv : string) : chat_state :=
  {| chat_history :=
       chat_history st
       ++ [{| msg_role := user; msg_content := q |};
           {| msg_role := assistant;
              msg_content :=
                if Py.truthy conv then conv
                else "(LLM made a proposal which was rejected by the user.)" |}];
     message_being_refined_in_chat := message_being_refined_in_chat st |}.

(** The session of the end-to-end scenario: the query, the model's reply
    with a proposal, and the answer to the yes/no prompt. *)
Definition scenario_template : prompt_template :=
  {| text_before_diff := "Diff: "; text_between := " Draft: ";
     text_after_draft := "" |}.

Definition scenario_proposal : string :=
  "fix: correct off-by-one in parser" +:+ Py.nl +:+ Py.nl
  +:+ "Adjusts loop bound.".

Definition scenario_reply : string :=
  "Sure." +:+ Py.nl +:+ PROPOSED_COMMIT_MARKER_START +:+ Py.nl
  +:+ scenario_proposal +:+ Py.nl +:+ PROPOSED_COMMIT_MARKER_END.

Definition scenario_chat (answer : prompt_result) : turn_env :=
  {| chat_prompt := Entered "make it more detailed";
     model_call := fun _ => Responded scenario_reply;
     confirm_prompt := answer |}.

(** A turn on which the line [line] is entered, the model fails and every
    yes/no prompt is interrupted. *)
Definition scenario_line (line : string) : turn_env :=
  {| chat_prompt := Entered line;
     model_call := fun _ => Failed "timeout";
     confirm_prompt := RaisedKeyboardInterrupt |}.

(** The first of the candidates that is a non-empty text. *)
Fixpoint first_nonempty (candidates : list (option string)) : option string :=
  match candidates with
  | [] => None
  | c :: rest => if Py.truthy_opt c then c else first_nonempty rest
  end.

(** The editor git is configured with: the trimmed output of a run that
    succeeded, when something is left of it. *)
Definition git_configured_editor (run : git_config_run) : option string :=
  match run with
  | Completed returncode stdout =>
      if (returncode =? 0)%Z && Py.truthy (Py.strip stdout)
      then Some (Py.strip stdout) else None
  | GitNotFound => None
  end.

(** The editor candidates of the environment, in the order they are tried. *)
Definition editor_candidates (env : process_env) : list (option string) :=
  [environ env !! "LLM_GIT_COMMIT_EDITOR";
   git_configured_editor (git_config_core_editor env);
   environ env !! "VISUAL";
   environ env !! "EDITOR"].

(** The surface on which an environment lookup ends: the editor found, or
    the built-in editor. *)
Definition is_built_in (surface : editing_surface) : Prop :=
  surface = BuiltInEditor \/ surface = BuiltInEditorAfterWarning.

(** A string that does not begin with whitespace. *)
Definition starts_clean (s : string) : Prop :=
  match s with
  | EmptyString => True
  | String c _ => Py.isspace c = false
  end.

(** The reply is without a pair of markers: no start marker occurs in it,
    or its first start marker has no end marker behind it. *)
Definition unpaired_markers (raw : string) : Prop :=
  (forall k, ~ occurs_at PROPOSED_COMMIT_MARKER_START raw k)
  \/ (exists i,
        first_occurrence PROPOSED_COMMIT_MARKER_START raw 0 i
        /\ forall k, i + String.length PROPOSED_COMMIT_MARKER_START <= k ->
                     ~ occurs_at PROPOSED_COMMIT_MARKER_END raw k).

(** On the turn [env], taken in the state [st], the text [draft] was the
    proposal of the model's reply to a chat query and was accepted. *)
Definition accepted_on_turn
    (tpl : prompt_template) (diff : string) (st : chat_state) (env : turn_env)
    (draft : string) : Prop :=
  exists q raw answer,
    classify (chat_prompt env) = ChatQuery q
    /\ model_call env (messages_for_llm tpl diff st q) = Responded raw
    /\ extracted_proposal_text (parse raw) = Some draft
    /\ confirm_prompt env = Entered answer
    /\ answers_yes answer.

(** During the session run on [envs] the text [draft] was accepted: on one
    of the turns, in the state the turns before it led to. *)
Definition accepted_in_session
    (tpl : prompt_template) (seed diff : string) (envs : list turn_env)
    (draft : string) : Prop :=
  exists before env after st,
    envs = before ++ env :: after
    /\ snd (chat_loop tpl seed diff (initial_state seed) before) = Prompting st
    /\ accepted_on_turn tpl diff st env draft.

(** The entries of a history were written by the user or the assistant. *)
Definition no_system_entry (entries : list chat_message) : Prop :=
  Forall (fun m => msg_role m <> system) entries.

(** [env] with another model behind it. *)
Definition with_model (env : turn_env) (model : list chat_message -> model_result)
  : turn_env :=
  {| chat_prompt := chat_prompt env; model_call := model;
     confirm_prompt := confirm_prompt env |}.

(** Every line boundary of [s] is a line feed. *)
Fixpoint only_line_feeds (s : string) : bool :=
  match s with
  | EmptyString => true
  | String c s' =>
      (negb (is_line_boundary c) || (nat_of_ascii c =? 10)) && only_line_feeds s'
  end.

(** No [#] stands at the beginning of a line of [s], lines being ended by
    line feeds; [at_line_start] tells whether [s] begins a line. *)
Fixpoint no_comment_line (at_line_start : bool) (s : string) : bool :=
  match s with
  | EmptyString => true
  | String c s' =>
      negb (at_line_start && (nat_of_ascii c =? 35))
      && no_comment_line (nat_of_ascii c =? 10) s'
  end.

(** The text a style setting leads to: the style is named, has a prompt
    text, and the text is not empty. *)
Definition usable_prompt (store : prompt_store) (style : option string)
  : option string :=
  match style with
  | Some name =>
      if Py.truthy name then
        match get_prompt_content store name with
        | Some content => if Py.truthy content then Some content else None
        | None => None
        end
      else None
  | None => None
  end.

(** The first of the candidates that is there. *)
Fixpoint first_some (candidates : list (option string)) : option string :=
  match candidates with
  | [] => None
  | Some text :: _ => Some text
  | None :: rest => first_some rest
  end.

Lemma append_String c s t : String c s +:+ t = String c (s +:+ t).
Proof. reflexivity. Qed.

Lemma append_empty_r s : s +:+ "" = s.
Proof. induction s as [|c s IH]; [reflexivity|]. rewrite append_String. by f_equal. Qed.

Lemma append_assoc s t u : (s +:+ t) +:+ u = s +:+ t +:+ u.
Proof.
  induction s as [|c s IH]; [reflexivity|].
  rewrite !append_String. by f_equal.
Qed.

Lemma length_append s t :
  String.length (s +:+ t) = String.length s + String.length t.
Proof.
  induction s as [|c s IH]; [reflexivity|].
  rewrite append_String. simpl. by rewrite IH.
Qed.

Lemma substring_empty k n : String.substring k n "" = "".
Proof. by destruct k, n. Qed.

Lemma substring_whole s : String.substring 0 (String.length s) s = s.
Proof. induction s as [|c s IH]; [reflexivity|]. simpl. by rewrite IH. Qed.

Lemma length_substring s : forall k n,
  String.length (String.substring k n s) = Nat.min n (String.length s - k).
Proof.
  induction s as [|c s IH]; intros k n.
  - rewrite substring_empty. simpl. lia.
  - destruct k as [|k]; simpl.
    + destruct n as [|n]; [reflexivity|]. simpl. rewrite IH. lia.
    + apply IH.
Qed.

(** Reading from [p + m] is reading from [m] in [s[p:]]. *)
Lemma substring_slice_from s : forall p m n,
  String.substring (p + m) n s = String.substring m n (Py.slice_from s p).
Proof.
  unfold Py.slice_from.
  induction s as [|c s IH]; intros p m n.
  - by rewrite !substring_empty.
  - destruct p as [|p].
    + rewrite Nat.sub_0_r, substring_whole. reflexivity.
    + simpl. apply IH.
Qed.

Lemma length_slice_from s p :
  String.length (Py.slice_from s p) = String.length s - p.
Proof. unfold Py.slice_from. rewrite length_substring. lia. Qed.

Lemma slice_from_slice_from s p q :
  Py.slice_from s (p + q) = Py.slice_from (Py.slice_from s p) q.
Proof.
  change (Py.slice_from s (p + q))
    with (String.substring (p + q) (String.length s - (p + q)) s).
  change (Py.slice_from (Py.slice_from s p) q)
    with (String.substring q (String.length (Py.slice_from s p) - q)
                           (Py.slice_from s p)).
  rewrite substring_slice_from, length_slice_from. f_equal. lia.
Qed.

(** [s == s[:k] + s[k:]] *)
Lemma slice_to_slice_from s : forall k, s = Py.slice_to s k +:+ Py.slice_from s k.
Proof.
  unfold Py.slice_to, Py.slice_from.
  induction s as [|c s IH]; intros k.
  - by rewrite !substring_empty.
  - destruct k as [|k].
    + rewrite Nat.sub_0_r, substring_whole. reflexivity.
    + simpl. rewrite append_String. f_equal. apply IH.
Qed.

(** A string in which [sub] is read at [k] is the text before, [sub], and
    the text after. *)
Lemma occurrence_splits sub s k :
  occurs_at sub s k ->
  s = Py.slice_to s k +:+ sub +:+ Py.slice_from s (k + String.length sub).
Proof.
  intros Hocc.
  rewrite (slice_to_slice_from s k) at 1. f_equal.
  rewrite (slice_to_slice_from (Py.slice_from s k) (String.length sub)) at 1.
  rewrite <- slice_from_slice_from. f_equal.
  unfold Py.slice_to. rewrite <- substring_slice_from, Nat.add_0_r. exact Hocc.
Qed.

(** A string that is read somewhere fits there. *)
Lemma occurrence_fits sub s k :
  sub <> "" -> occurs_at sub s k -> k + String.length sub <= String.length s.
Proof.
  intros Hne Hocc. apply (f_equal String.length) in Hocc.
  rewrite length_substring in Hocc.
  destruct sub as [|c sub]; [done|].
  change (String.length (String c sub)) with (S (String.length sub)) in *. lia.
Qed.

(** What [find] returns. *)
Lemma find_Some s sub start i :
  Py.find s sub start = Some i -> first_occurrence sub s start i.
Proof.
  unfold Py.find. intros Hfind. split; [|split].
  - revert start i Hfind. induction s as [|c s IH]; intros start i Hfind.
    + destruct start; simpl in Hfind; [|done]. destruct sub; [|done].
      injection Hfind as <-. lia.
    + destruct start as [|start]; [lia|]. simpl in Hfind.
      destruct (String.index start sub s) as [j|] eqn:Hj; [|done].
      injection Hfind as <-. apply IH in Hj. lia.
  - exact (String.index_correct1 _ _ _ _ Hfind).
  - intros k Hk1 Hk2. exact (String.index_correct2 _ _ _ _ Hfind k Hk1 Hk2).
Qed.

Lemma find_None s sub start :
  sub <> "" -> Py.find s sub start = None ->
  forall k, start <= k -> ~ occurs_at sub s k.
Proof.
  unfold Py.find. intros Hne Hfind k Hk.
  exact (String.index_correct3 _ k _ _ Hfind Hne Hk).
Qed.

(** [find] finds what is there. *)
Lemma find_finds s sub start k :
  sub <> "" -> start <= k -> occurs_at sub s k ->
  exists i, Py.find s sub start = Some i /\ i <= k.
Proof.
  intros Hne Hk Hocc.
  destruct (Py.find s sub start) as [i|] eqn:Hfind.
  - exists i. split; [reflexivity|].
    destruct (find_Some _ _ _ _ Hfind) as (_ & _ & Hfirst).
    destruct (le_lt_dec i k) as [|Hlt]; [assumption|].
    exfalso. exact (Hfirst k Hk Hlt Hocc).
  - exfalso. exact (find_None _ _ _ Hne Hfind k Hk Hocc).
Qed.

(** The first occurrence is the one [find] returns. *)
Lemma find_first s sub start i :
  sub <> "" -> first_occurrence sub s start i -> Py.find s sub start = Some i.
Proof.
  intros Hne (Hle & Hocc & Hfirst).
  destruct (find_finds s sub start i Hne Hle Hocc) as (j & Hfind & Hji).
  rewrite Hfind. f_equal.
  destruct (find_Some _ _ _ _ Hfind) as (Hsj & Hoccj & _).
  destruct (le_lt_dec i j) as [|Hlt]; [lia|].
  exfalso. exact (Hfirst j Hsj Hlt Hoccj).
Qed.

Lemma slice_to_append a x : Py.slice_to (a +:+ x) (String.length a) = a.
Proof.
  unfold Py.slice_to. induction a as [|c a IH].
  - by destruct x.
  - rewrite append_String. simpl. by rewrite IH.
Qed.

Lemma slice_from_append a x : Py.slice_from (a +:+ x) (String.length a) = x.
Proof.
  unfold Py.slice_from. rewrite length_append.
  replace (String.length a + String.length x - String.length a)
    with (String.length x) by lia.
  induction a as [|c a IH].
  - apply substring_whole.
  - rewrite append_String. simpl. exact IH.
Qed.

Lemma slice_append a x n :
  Py.slice (a +:+ x) (String.length a) (String.length a + n) = Py.slice_to x n.
Proof.
  unfold Py.slice, Py.slice_to.
  replace (String.length a + n - String.length a) with n by lia.
  rewrite <- (Nat.add_0_r (String.length a)) at 1.
  by rewrite substring_slice_from, slice_from_append.
Qed.

Lemma START_not_empty : PROPOSED_COMMIT_MARKER_START <> "".
Proof. discriminate. Qed.

Lemma END_not_empty : PROPOSED_COMMIT_MARKER_END <> "".
Proof. discriminate. Qed.

(** Every reply in which the start marker is read somewhere and the end
    marker somewhere behind it is a text, the start marker, a text, the end
    marker and a text, cut at the first start marker and at the first end
    marker behind it. *)
Lemma paired_markers_decompose raw i j :
  occurs_at PROPOSED_COMMIT_MARKER_START raw i ->
  i + String.length PROPOSED_COMMIT_MARKER_START <= j ->
  occurs_at PROPOSED_COMMIT_MARKER_END raw j ->
  exists A B C,
    raw = A +:+ PROPOSED_COMMIT_MARKER_START +:+ B
            +:+ PROPOSED_COMMIT_MARKER_END +:+ C
    /\ first_occurrence PROPOSED_COMMIT_MARKER_START raw 0 (String.length A)
    /\ first_occurrence PROPOSED_COMMIT_MARKER_END raw
         (String.length A + String.length PROPOSED_COMMIT_MARKER_START)
         (String.length A + String.length PROPOSED_COMMIT_MARKER_START
          + String.length B).
Proof.
  intros Hs Hij He.
  destruct (find_finds raw _ 0 i START_not_empty (Nat.le_0_l _) Hs)
    as (si & Hfs & Hsi).
  pose proof (find_Some _ _ _ _ Hfs) as Hfirst_s.
  destruct Hfirst_s as (Hs0 & Hocc_s & Hbefore_s).
  set (p := si + String.length PROPOSED_COMMIT_MARKER_START) in *.
  assert (Hpj : p <= j) by (unfold p; lia).
  destruct (find_finds raw _ p j END_not_empty Hpj He) as (ei & Hfe & Hei).
  destruct (find_Some _ _ _ _ Hfe) as (Hpe & Hocc_e & Hbefore_e).
  pose proof (occurrence_fits _ _ _ START_not_empty Hocc_s) as Hfit_s.
  pose proof (occurrence_fits _ _ _ END_not_empty Hocc_e) as Hfit_e.
  assert (HlenA : String.length (Py.slice_to raw si) = si).
  { unfold Py.slice_to. rewrite length_substring. lia. }
  assert (HlenB : String.length (Py.slice raw p ei) = ei - p).
  { unfold Py.slice. rewrite length_substring. lia. }
  exists (Py.slice_to raw si), (Py.slice raw p ei),
         (Py.slice_from raw (ei + String.length PROPOSED_COMMIT_MARKER_END)).
  rewrite HlenA, HlenB. fold p.
  replace (p + (ei - p)) with ei by lia.
  split; [|split].
  - rewrite (occurrence_splits _ _ _ Hocc_s) at 1. do 2 f_equal. fold p.
    assert (Hocc_e' : occurs_at PROPOSED_COMMIT_MARKER_END
                        (Py.slice_from raw p) (ei - p)).
    { unfold occurs_at. rewrite <- substring_slice_from.
      replace (p + (ei - p)) with ei by lia. exact Hocc_e. }
    rewrite (occurrence_splits _ _ _ Hocc_e') at 1. f_equal.
    + unfold Py.slice_to, Py.slice.
      rewrite <- substring_slice_from. f_equal. lia.
    + f_equal. rewrite <- slice_from_slice_from. f_equal. lia.
  - split; [lia|]. split; assumption.
  - split; [assumption|]. split; assumption.
Qed.

(** [C3]  When the first start marker stands after the text [A], and the
    first end marker behind it after the text [B], with the text [C] left
    over, the conversational segments are [A] and [C], trimmed, in this
    order and without the empty ones, and the proposal is [B] trimmed, or
    absent when nothing is left of [B] after trimming. By
    [paired_markers_decompose] every reply with a start marker and an end
    marker behind it is of this form. *)
Theorem parse_paired_markers A B C :
  let raw := A +:+ PROPOSED_COMMIT_MARKER_START +:+ B
               +:+ PROPOSED_COMMIT_MARKER_END +:+ C in
  first_occurrence PROPOSED_COMMIT_MARKER_START raw 0 (String.length A) ->
  first_occurrence PROPOSED_COMMIT_MARKER_END raw
    (String.length A + String.length PROPOSED_COMMIT_MARKER_START)
    (String.length A + String.length PROPOSED_COMMIT_MARKER_START
     + String.length B) ->
  conversational_parts_to_print (parse raw)
    = List.filter Py.truthy [Py.strip A; Py.strip C]
  /\ extracted_proposal_text (parse raw)
     = (if Py.truthy (Py.strip B) then Some (Py.strip B) else None).
Proof.
  intros raw Hs He. unfold parse.
  rewrite (find_first _ _ _ _ START_not_empty Hs).
  rewrite (find_first _ _ _ _ END_not_empty He).
  assert (HA : Py.slice_to raw (String.length A) = A)
    by apply slice_to_append.
  assert (Hrest : Py.slice_from raw
            (String.length A + String.length PROPOSED_COMMIT_MARKER_START)
          = B +:+ PROPOSED_COMMIT_MARKER_END +:+ C).
  { unfold raw. rewrite slice_from_slice_from, slice_from_append.
    apply slice_from_append. }
  assert (HB : Py.slice raw
            (String.length A + String.length PROPOSED_COMMIT_MARKER_START)
            (String.length A + String.length PROPOSED_COMMIT_MARKER_START
             + String.length B) = B).
  { unfold Py.slice.
    rewrite <- (Nat.add_0_r (String.length A
                  + String.length PROPOSED_COMMIT_MARKER_START)) at 1.
    rewrite substring_slice_from, Hrest.
    replace (String.length A + String.length PROPOSED_COMMIT_MARKER_START
             + String.length B
             - (String.length A + String.length PROPOSED_COMMIT_MARKER_START))
      with (String.length B) by lia.
    apply slice_to_append. }
  assert (HC : Py.slice_from raw
            (String.length A + String.length PROPOSED_COMMIT_MARKER_START
             + String.length B + String.length PROPOSED_COMMIT_MARKER_END) = C).
  { rewrite <- Nat.add_assoc, slice_from_slice_from, Hrest.
    rewrite slice_from_slice_from, slice_from_append.
    apply slice_from_append. }
  cbv zeta. rewrite HA, HB, HC. cbn [conversational_parts_to_print
    extracted_proposal_text List.filter].
  split; [|reflexivity].
  destruct (Py.truthy (Py.strip A)), (Py.truthy (Py.strip C)); reflexivity.
Qed.

Lemma parse_paired_markers_witness :
  conversational_parts_to_print
    (parse ("Sure. " +:+ PROPOSED_COMMIT_MARKER_START +:+ " fix: x "
            +:+ PROPOSED_COMMIT_MARKER_END +:+ " bye"))
    = List.filter Py.truthy [Py.strip "Sure. "; Py.strip " bye"]
  /\ extracted_proposal_text
       (parse ("Sure. " +:+ PROPOSED_COMMIT_MARKER_START +:+ " fix: x "
               +:+ PROPOSED_COMMIT_MARKER_END +:+ " bye"))
     = (if Py.truthy (Py.strip " fix: x ") then Some (Py.strip " fix: x ")
        else None).
Proof.
  apply (parse_paired_markers "Sure. " " fix: x " " bye");
    apply find_Some; vm_compute; reflexivity.
Defined.

(** On a reply without a start marker, and on a reply whose first start
    marker has no end marker behind it, the extraction yields no proposal
    and one conversational segment, the whole reply trimmed. *)
Lemma parse_unpaired_markers raw :
  (forall k, ~ occurs_at PROPOSED_COMMIT_MARKER_START raw k)
  \/ (exists i,
        first_occurrence PROPOSED_COMMIT_MARKER_START raw 0 i
        /\ forall k, i + String.length PROPOSED_COMMIT_MARKER_START <= k ->
                     ~ occurs_at PROPOSED_COMMIT_MARKER_END raw k) ->
  parse raw
  = {| conversational_parts_to_print := [Py.strip raw];
       extracted_proposal_text := None;
       conversational_text_for_history_if_proposal_rejected := Py.strip raw |}.
Proof.
  intros [Hnone | (i & Hs & Hnone)]; unfold parse.
  - destruct (Py.find raw PROPOSED_COMMIT_MARKER_START 0) as [si|] eqn:Hfs;
      [|reflexivity].
    destruct (find_Some _ _ _ _ Hfs) as (_ & Hocc & _).
    exfalso. exact (Hnone si Hocc).
  - rewrite (find_first _ _ _ _ START_not_empty Hs).
    destruct (Py.find raw PROPOSED_COMMIT_MARKER_END _) as [ei|] eqn:Hfe;
      [|reflexivity].
    destruct (find_Some _ _ _ _ Hfe) as (Hle & Hocc & _).
    exfalso. exact (Hnone ei Hle Hocc).
Qed.

Example parse_unpaired_markers_example :
  parse ("A" +:+ PROPOSED_COMMIT_MARKER_START +:+ "B")
  = {| conversational_parts_to_print :=
         [Py.strip ("A" +:+ PROPOSED_COMMIT_MARKER_START +:+ "B")];
       extracted_proposal_text := None;
       conversational_text_for_history_if_proposal_rejected :=
         Py.strip ("A" +:+ PROPOSED_COMMIT_MARKER_START +:+ "B") |}.
Proof.
  apply parse_unpaired_markers. right. exists 1. split.
  - apply find_Some. vm_compute. reflexivity.
  - apply find_None; [discriminate | vm_compute; reflexivity].
Qed.

(** The extraction on the replies of the specification's examples. *)
Example parse_without_markers :
  parse "  looks good to me  "
  = {| conversational_parts_to_print := ["looks good to me"];
       extracted_proposal_text := None;
       conversational_text_for_history_if_proposal_rejected :=
         "looks good to me" |}.
Proof. vm_compute. reflexivity. Qed.

Example parse_marker_extraction :
  parse ("A" +:+ PROPOSED_COMMIT_MARKER_START +:+ "B"
         +:+ PROPOSED_COMMIT_MARKER_END +:+ "C")
  = {| conversational_parts_to_print := ["A"; "C"];
       extracted_proposal_text := Some "B";
       conversational_text_for_history_if_proposal_rejected :=
         "A" +:+ Py.nl +:+ "C" |}.
Proof. vm_compute. reflexivity. Qed.

Example parse_vacuous_proposal :
  parse ("A" +:+ PROPOSED_COMMIT_MARKER_START +:+ "   "
         +:+ PROPOSED_COMMIT_MARKER_END +:+ "C")
  = {| conversational_parts_to_print := ["A"; "C"];
       extracted_proposal_text := None;
       conversational_text_for_history_if_proposal_rejected :=
         "A" +:+ Py.nl +:+ "C" |}.
Proof. vm_compute. reflexivity. Qed.

(** Of two marker pairs the first is taken; the second stays in the
    trailing segment as it is. *)
Example parse_two_pairs :
  parse (PROPOSED_COMMIT_MARKER_START +:+ "one" +:+ PROPOSED_COMMIT_MARKER_END
         +:+ " or " +:+ PROPOSED_COMMIT_MARKER_START +:+ "two"
         +:+ PROPOSED_COMMIT_MARKER_END)
  = {| conversational_parts_to_print :=
         ["or " +:+ PROPOSED_COMMIT_MARKER_START +:+ "two"
          +:+ PROPOSED_COMMIT_MARKER_END];
       extracted_proposal_text := Some "one";
       conversational_text_for_history_if_proposal_rejected :=
         "or " +:+ PROPOSED_COMMIT_MARKER_START +:+ "two"
         +:+ PROPOSED_COMMIT_MARKER_END |}.
Proof. vm_compute. reflexivity. Qed.

(** ** Whitespace and trimming *)

Lemma truthy_rstrip s : Py.truthy (Py.rstrip s) = negb (all_space s).
Proof.
  induction s as [|c s IH]; [reflexivity|]. simpl.
  destruct (Py.rstrip s); simpl in *.
  - apply (f_equal negb) in IH. rewrite negb_involutive in IH. simpl in IH.
    rewrite <- IH, andb_true_r. by destruct (Py.isspace c).
  - apply (f_equal negb) in IH. rewrite negb_involutive in IH. simpl in IH.
    rewrite <- IH, andb_false_r. reflexivity.
Qed.

Lemma all_space_lstrip s : all_space (Py.lstrip s) = all_space s.
Proof.
  induction s as [|c s IH]; [reflexivity|]. simpl.
  destruct (Py.isspace c) eqn:Hc; simpl; [exact IH|]. by rewrite Hc.
Qed.

Lemma truthy_strip s : Py.truthy (Py.strip s) = negb (all_space s).
Proof. unfold Py.strip. by rewrite truthy_rstrip, all_space_lstrip. Qed.

Lemma all_space_append s t : all_space (s +:+ t) = all_space s && all_space t.
Proof.
  induction s as [|c s IH]; [reflexivity|].
  rewrite append_String. simpl. by rewrite IH, andb_assoc.
Qed.

Lemma truthy_false s : Py.truthy s = false <-> s = "".
Proof. destruct s; simpl; split; intros; congruence. Qed.

Lemma truthy_true s : Py.truthy s = true <-> s <> "".
Proof. destruct s; simpl; split; intros; congruence. Qed.

(** A reply with a proposal is not blank, and neither is the proposal. *)
Lemma parse_proposal_not_blank raw P :
  extracted_proposal_text (parse raw) = Some P ->
  Py.truthy (Py.strip raw) = true /\ Py.truthy P = true.
Proof.
  unfold parse.
  destruct (Py.find raw PROPOSED_COMMIT_MARKER_START 0) as [si|] eqn:Hfs;
    [|discriminate].
  destruct (Py.find raw PROPOSED_COMMIT_MARKER_END _) as [ei|];
    [|discriminate].
  cbn [extracted_proposal_text].
  destruct (Py.truthy (Py.strip (Py.slice raw _ ei))) eqn:HP; [|discriminate].
  intros [= <-]. split; [|exact HP].
  destruct (find_Some _ _ _ _ Hfs) as (_ & Hocc & _).
  rewrite truthy_strip, (occurrence_splits _ _ _ Hocc), !all_space_append.
  replace (all_space PROPOSED_COMMIT_MARKER_START) with false by reflexivity.
  by rewrite andb_false_r.
Qed.

Lemma answers_yes_test answer :
  String.eqb (Py.strip (Py.lower answer)) "y"
  || negb (Py.truthy (Py.strip answer)) = true
  <-> answers_yes answer.
Proof.
  unfold answers_yes.
  rewrite orb_true_iff, String.eqb_eq, negb_true_iff, truthy_false.
  reflexivity.
Qed.

Lemma not_answers_yes_test answer :
  String.eqb (Py.strip (Py.lower answer)) "y"
  || negb (Py.truthy (Py.strip answer)) = false
  <-> ~ answers_yes answer.
Proof.
  rewrite <- answers_yes_test. by destruct (_ || _).
Qed.

(** ** One iteration, branch by branch *)

Lemma classify_cancel_trigger r : cancel_trigger r -> classify r = Cancel.
Proof.
  intros [text Htoken | | ]; [|reflexivity..].
  unfold classify, read_user_input, clean_user_query. cbn [fst].
  destruct (negb (Py.truthy (Py.strip text)) && _); [reflexivity|].
  cbn [fst]. unfold dispatch. by rewrite Htoken.
Qed.

Lemma classify_blank text : Py.strip text = "" -> classify (Entered text) = Cancel.
Proof.
  intros Hblank.
  unfold classify, read_user_input, clean_user_query. cbn [fst].
  rewrite Hblank. cbn [Py.truthy negb andb].
  destruct (String.eqb text "/apply") eqn:Happly; [|reflexivity].
  apply String.eqb_eq in Happly. subst text. discriminate Hblank.
Qed.

(** Only a line that was entered, is not blank and is neither token reaches
    the chat branch; the query is the line trimmed. *)
Lemma classify_chat_query r q :
  classify r = ChatQuery q ->
  exists text,
    r = Entered text /\ clean_user_query text = (q, [])
    /\ Py.strip text = q /\ Py.truthy q = true
    /\ String.eqb (Py.lower q) "/apply" = false
    /\ dispatch q = ChatQuery q.
Proof.
  destruct r as [text| | |]; [|discriminate..].
  unfold classify, read_user_input, clean_user_query. cbn [fst].
  destruct (Py.truthy (Py.strip text)) eqn:Htruthy; cbn [negb andb].
  - cbn [fst]. intros Hd. pose proof Hd as Hd'. unfold dispatch in Hd.
    destruct (String.eqb (Py.lower (Py.strip text)) "/cancel"); [discriminate|].
    destruct (String.eqb (Py.lower (Py.strip text)) "/apply") eqn:Happly;
      [discriminate|].
    injection Hd as <-. exists text. by rewrite Htruthy.
  - destruct (String.eqb text "/apply") eqn:Happly; cbn [negb fst];
      [|discriminate].
    apply String.eqb_eq in Happly. subst text. discriminate Htruthy.
Qed.

Lemma chat_turn_cancel tpl seed diff st env :
  classify (chat_prompt env) = Cancel ->
  snd (chat_turn tpl seed diff st env) = Return seed.
Proof.
  unfold classify, chat_turn. intros Hc. by rewrite Hc.
Qed.

Lemma chat_turn_apply tpl seed diff st env :
  classify (chat_prompt env) = Apply ->
  exists shown, chat_turn tpl seed diff st env = apply_branch env st shown.
Proof.
  unfold classify, chat_turn. intros Hc. rewrite Hc. eauto.
Qed.

Lemma chat_turn_chat tpl seed diff st env q :
  classify (chat_prompt env) = ChatQuery q ->
  chat_turn tpl seed diff st env
  = chat_branch tpl diff env st q (shown_before_chat st q).
Proof.
  intros Hc.
  destruct (classify_chat_query _ _ Hc)
    as (text & Hr & Hclean & _ & Htruthy & Happly & Hd).
  unfold chat_turn. rewrite Hr. cbn [read_user_input fst snd].
  rewrite Hclean. cbn [fst snd]. rewrite Hd.
  unfold echo_user_query. rewrite Happly, Htruthy. reflexivity.
Qed.

(** The [/apply] branch on a draft that is not blank, after the answer. *)
Lemma apply_branch_answer env st shown answer :
  Py.truthy (Py.strip (message_being_refined_in_chat st)) = true ->
  confirm_prompt env = Entered answer ->
  snd (apply_branch env st shown)
  = if String.eqb (Py.strip (Py.lower answer)) "y"
       || negb (Py.truthy (Py.strip answer))
    then Return (message_being_refined_in_chat st)
    else Continue st.
Proof.
  intros Hdraft Hanswer. unfold apply_branch.
  rewrite Hdraft, Hanswer. cbn [negb await_confirmation].
  by destruct (_ || _).
Qed.

(** The chat branch on a reply with a proposal, after the answer. *)
Lemma chat_branch_answer tpl diff env st q shown raw P answer :
  model_call env (messages_for_llm tpl diff st q) = Responded raw ->
  extracted_proposal_text (parse raw) = Some P ->
  confirm_prompt env = Entered answer ->
  snd (chat_branch tpl diff env st q shown)
  = Continue
      (if String.eqb (Py.strip (Py.lower answer)) "y"
          || negb (Py.truthy (Py.strip answer))
       then accepted st q P
       else rejected st q
              (conversational_text_for_history_if_proposal_rejected (parse raw))).
Proof.
  intros Hmodel Hproposal Hanswer.
  destruct (parse_proposal_not_blank _ _ Hproposal) as (Hraw & HP).
  unfold chat_branch, ask_model. rewrite Hmodel, Hraw. cbn [negb].
  rewrite Hproposal, HP, Hanswer. cbn [negb await_confirmation].
  destruct (_ || _); unfold record_assistant_response; cbn [snd].
  - rewrite HP. cbn [orb]. unfold accepted. by rewrite <- !app_assoc.
  - unfold rejected.
    destruct (Py.truthy (conversational_text_for_history_if_proposal_rejected _))
      eqn:Hconv; [rewrite Hconv|]; cbn [orb Py.truthy]; by rewrite <- app_assoc.
Qed.

(** ** The loop *)

Lemma chat_loop_app tpl seed diff pre : forall st rest st',
  snd (chat_loop tpl seed diff st pre) = Prompting st' ->
  snd (chat_loop tpl seed diff st (pre ++ rest))
  = snd (chat_loop tpl seed diff st' rest).
Proof.
  induction pre as [|env pre IH]; intros st rest st' Hpre.
  - cbn in Hpre. by injection Hpre as <-.
  - cbn [app chat_loop] in *.
    destruct (chat_turn tpl seed diff st env) as [shown [st1|result|e]];
      [|discriminate..].
    specialize (IH st1 rest st').
    destruct (chat_loop tpl seed diff st1 pre) as [shown1 o1].
    destruct (chat_loop tpl seed diff st1 (pre ++ rest)) as [shown2 o2].
    cbn [snd] in *. auto.
Qed.

Lemma chat_loop_step tpl seed diff st env rest :
  snd (chat_loop tpl seed diff st (env :: rest))
  = match snd (chat_turn tpl seed diff st env) with
    | Continue st' => snd (chat_loop tpl seed diff st' rest)
    | Return result => Returned result
    | Raise e => Raised e
    end.
Proof.
  cbn [chat_loop].
  destruct (chat_turn tpl seed diff st env) as [shown [st1|result|e]];
    [|reflexivity..].
  cbn [snd]. by destruct (chat_loop tpl seed diff st1 rest).
Qed.

Lemma chat_for_refinement_loop tpl seed diff envs :
  snd (chat_for_refinement tpl seed diff envs)
  = snd (chat_loop tpl seed diff (initial_state seed) envs).
Proof.
  unfold chat_for_refinement. by destruct (chat_loop _ _ _ _ _).
Qed.

(** A blank reply does not reach the extraction: the turn shows that the
    model returned no text, and the reply counts as one without proposal,
    without segments and with an empty conversational text. *)
Lemma ask_model_blank_reply raw :
  Py.strip raw = "" ->
  ask_model (Responded raw)
  = ([Say "LLM thinking..."; Say "LLM:"; Say "(LLM returned no text)"], raw,
     {| conversational_parts_to_print := [];
        extracted_proposal_text := None;
        conversational_text_for_history_if_proposal_rejected := "" |}).
Proof. intros Hblank. unfold ask_model. by rewrite Hblank. Qed.

(** Only the chat prompt turns an interrupt into a cancellation. At a
    yes/no prompt the interrupt leaves the session as an exception. *)
Lemma interrupt_at_confirmation_escapes tpl seed diff st env :
  classify (chat_prompt env) = Apply ->
  Py.strip (message_being_refined_in_chat st) <> "" ->
  confirm_prompt env = RaisedKeyboardInterrupt ->
  snd (chat_turn tpl seed diff st env) = Raise KeyboardInterrupt.
Proof.
  intros Hc Hdraft Hanswer. apply truthy_true in Hdraft.
  destruct (chat_turn_apply tpl seed diff st env Hc) as (shown & ->).
  unfold apply_branch. by rewrite Hdraft, Hanswer.
Qed.

(** The end-to-end scenario: the proposal is accepted, then applied. *)
Example scenario_accept_then_apply :
  snd (chat_for_refinement scenario_template "fix: bug" "diff"
         [scenario_chat (Entered "y");
          {| chat_prompt := Entered "/apply";
             model_call := fun _ => Failed "unused";
             confirm_prompt := Entered "Y" |}])
  = Returned scenario_proposal.
Proof. vm_compute. reflexivity. Qed.

(** The same session cancelled after the proposal was accepted. *)
Example scenario_accept_then_cancel :
  snd (chat_for_refinement scenario_template "fix: bug" "diff"
         [scenario_chat (Entered "y"); scenario_line "/cancel"])
  = Returned "fix: bug".
Proof. vm_compute. reflexivity. Qed.

(** ** The session claims *)

(** [C1]  On a chat turn whose reply carries the proposal [P] (which is
    then not empty), a yes to the acceptance prompt makes [P] the current
    draft, and any other answer leaves the current draft as it was before
    the turn, whatever that draft and whatever the proposal. *)
Theorem accept_replaces_reject_keeps tpl seed diff st env q raw P answer :
  classify (chat_prompt env) = ChatQuery q ->
  model_call env (messages_for_llm tpl diff st q) = Responded raw ->
  extracted_proposal_text (parse raw) = Some P ->
  confirm_prompt env = Entered answer ->
  P <> ""
  /\ (answers_yes answer ->
      exists st', snd (chat_turn tpl seed diff st env) = Continue st'
                  /\ message_being_refined_in_chat st' = P)
  /\ (~ answers_yes answer ->
      exists st', snd (chat_turn tpl seed diff st env) = Continue st'
                  /\ message_being_refined_in_chat st'
                     = message_being_refined_in_chat st).
Proof.
  intros Hc Hmodel Hproposal Hanswer.
  rewrite (chat_turn_chat _ _ _ _ _ _ Hc).
  rewrite (chat_branch_answer _ _ _ _ _ _ _ _ _ Hmodel Hproposal Hanswer).
  split; [|split].
  - apply truthy_true. exact (proj2 (parse_proposal_not_blank _ _ Hproposal)).
  - intros Hyes. apply answers_yes_test in Hyes. rewrite Hyes. eauto.
  - intros Hno. apply not_answers_yes_test in Hno. rewrite Hno. eauto.
Qed.

Lemma accept_replaces_reject_keeps_witness :
  (exists st',
      snd (chat_turn scenario_template "fix: bug" "diff"
             (initial_state "fix: bug") (scenario_chat (Entered "")))
      = Continue st'
      /\ message_being_refined_in_chat st' = scenario_proposal)
  /\ (exists st',
         snd (chat_turn scenario_template "fix: bug" "diff"
                (initial_state "fix: bug") (scenario_chat (Entered "n")))
         = Continue st'
         /\ message_being_refined_in_chat st' = "fix: bug").
Proof.
  split.
  - refine (proj1 (proj2 (accept_replaces_reject_keeps
      scenario_template "fix: bug" "diff" (initial_state "fix: bug")
      (scenario_chat (Entered "")) "make it more detailed" scenario_reply
      scenario_proposal "" _ _ _ _)) _);
      [vm_compute; reflexivity.. | right; reflexivity].
  - refine (proj2 (proj2 (accept_replaces_reject_keeps
      scenario_template "fix: bug" "diff" (initial_state "fix: bug")
      (scenario_chat (Entered "n")) "make it more detailed" scenario_reply
      scenario_proposal "n" _ _ _ _)) _);
      [vm_compute; reflexivity.. | intros [H|H]; vm_compute in H; discriminate H].
Defined.

(** [C2]  However a session went before (any turns, any accepted
    proposals, any current draft), a cancellation at the chat prompt, by
    the [/cancel] token, an interrupt or the end of input, is the Cancel
    command and ends the session with the draft it was started with. *)
Theorem cancel_returns_seed tpl seed diff pre st env rest :
  snd (chat_loop tpl seed diff (initial_state seed) pre) = Prompting st ->
  cancel_trigger (chat_prompt env) ->
  classify (chat_prompt env) = Cancel
  /\ snd (chat_turn tpl seed diff st env) = Return seed
  /\ snd (chat_for_refinement tpl seed diff (pre ++ env :: rest))
     = Returned seed.
Proof.
  intros Hpre Htrigger.
  pose proof (classify_cancel_trigger _ Htrigger) as Hc.
  pose proof (chat_turn_cancel tpl seed diff st env Hc) as Hturn.
  split; [exact Hc|]. split; [exact Hturn|].
  rewrite chat_for_refinement_loop, (chat_loop_app _ _ _ _ _ _ _ Hpre).
  by rewrite chat_loop_step, Hturn.
Qed.

Lemma cancel_returns_seed_witness :
  snd (chat_for_refinement scenario_template "fix: bug" "diff"
         ([scenario_chat (Entered "y")] ++ scenario_line " /Cancel " :: []))
  = Returned "fix: bug".
Proof.
  refine (proj2 (proj2 (cancel_returns_seed
    scenario_template "fix: bug" "diff" [scenario_chat (Entered "y")]
    (accepted (initial_state "fix: bug") "make it more detailed"
              scenario_proposal)
    (scenario_line " /Cancel ") [] _ _))).
  - vm_compute. reflexivity.
  - constructor. vm_compute. reflexivity.
Defined.

(** [C5]  An Apply on a draft that is empty or all whitespace does not end
    the session: the turn reports that the draft cannot be applied and the
    session is back at the chat prompt with the same draft and history. *)
Theorem apply_on_blank_draft_rejected tpl seed diff st env :
  classify (chat_prompt env) = Apply ->
  Py.strip (message_being_refined_in_chat st) = "" ->
  snd (chat_turn tpl seed diff st env) = Continue st
  /\ In (Say "Current draft is empty. Cannot apply.")
        (fst (chat_turn tpl seed diff st env))
  /\ snd (chat_loop tpl seed diff st [env]) = Prompting st.
Proof.
  intros Hc Hblank.
  assert (Hturn : snd (chat_turn tpl seed diff st env) = Continue st
                  /\ In (Say "Current draft is empty. Cannot apply.")
                        (fst (chat_turn tpl seed diff st env))).
  { destruct (chat_turn_apply tpl seed diff st env Hc) as (shown & ->).
    unfold apply_branch. rewrite Hblank. cbn [Py.truthy negb fst snd].
    split; [reflexivity|]. apply in_or_app. right. left. reflexivity. }
  destruct Hturn as (Hturn & Hshown). split; [exact Hturn|].
  split; [exact Hshown|]. by rewrite chat_loop_step, Hturn.
Qed.

Lemma apply_on_blank_draft_rejected_witness :
  snd (chat_turn scenario_template "fix: bug" "diff"
         {| chat_history := []; message_being_refined_in_chat := "  " |}
         (scenario_line "/apply"))
  = Continue {| chat_history := []; message_being_refined_in_chat := "  " |}.
Proof.
  refine (proj1 (apply_on_blank_draft_rejected
    scenario_template "fix: bug" "diff"
    {| chat_history := []; message_being_refined_in_chat := "  " |}
    (scenario_line "/apply") _ _)); vm_compute; reflexivity.
Defined.

(** [C6]  A line that is empty after trimming (so the apply shortcut, which
    enters [/apply], has not fired) is the Cancel command: the turn returns
    the draft the session was started with, and the session ends there,
    whatever the model or a further prompt would have answered. *)
Theorem blank_line_cancels tpl seed diff st env rest text :
  chat_prompt env = Entered text ->
  Py.strip text = "" ->
  classify (chat_prompt env) = Cancel
  /\ snd (chat_turn tpl seed diff st env) = Return seed
  /\ snd (chat_loop tpl seed diff st (env :: rest)) = Returned seed.
Proof.
  intros Hr Hblank.
  assert (Hc : classify (chat_prompt env) = Cancel)
    by (rewrite Hr; by apply classify_blank).
  pose proof (chat_turn_cancel tpl seed diff st env Hc) as Hturn.
  split; [exact Hc|]. split; [exact Hturn|].
  by rewrite chat_loop_step, Hturn.
Qed.

Lemma blank_line_cancels_witness :
  snd (chat_turn scenario_template "fix: bug" "diff"
         (accepted (initial_state "fix: bug") "q" "feat: other")
         (scenario_line "   "))
  = Return "fix: bug".
Proof.
  refine (proj1 (proj2 (blank_line_cancels
    scenario_template "fix: bug" "diff"
    (accepted (initial_state "fix: bug") "q" "feat: other")
    (scenario_line "   ") [] "   " _ _))); reflexivity.
Defined.

(** [C7]  The apply confirmation and the acceptance confirmation read
    their answer the same way. An empty answer is a yes. On a yes the
    apply confirmation returns the current draft and the acceptance
    confirmation takes the proposal; on any other answer the first goes
    back to the chat prompt with nothing changed and the second keeps the
    draft. *)
Theorem confirmations_default_yes
    tpl seed diff st env_apply env_chat q raw P answer :
  classify (chat_prompt env_apply) = Apply ->
  Py.strip (message_being_refined_in_chat st) <> "" ->
  confirm_prompt env_apply = Entered answer ->
  classify (chat_prompt env_chat) = ChatQuery q ->
  model_call env_chat (messages_for_llm tpl diff st q) = Responded raw ->
  extracted_proposal_text (parse raw) = Some P ->
  confirm_prompt env_chat = Entered answer ->
  answers_yes ""
  /\ (answers_yes answer ->
      snd (chat_turn tpl seed diff st env_apply)
      = Return (message_being_refined_in_chat st)
      /\ snd (chat_turn tpl seed diff st env_chat) = Continue (accepted st q P))
  /\ (~ answers_yes answer ->
      snd (chat_turn tpl seed diff st env_apply) = Continue st
      /\ snd (chat_turn tpl seed diff st env_chat)
         = Continue (rejected st q
             (conversational_text_for_history_if_proposal_rejected (parse raw)))).
Proof.
  intros Hca Hdraft Hanswer_a Hcc Hmodel Hproposal Hanswer_c.
  apply truthy_true in Hdraft.
  destruct (chat_turn_apply tpl seed diff st env_apply Hca) as (shown & ->).
  rewrite (apply_branch_answer _ _ _ _ Hdraft Hanswer_a).
  rewrite (chat_turn_chat _ _ _ _ _ _ Hcc).
  rewrite (chat_branch_answer _ _ _ _ _ _ _ _ _ Hmodel Hproposal Hanswer_c).
  split; [right; reflexivity|]. split.
  - intros Hyes. apply answers_yes_test in Hyes. by rewrite Hyes.
  - intros Hno. apply not_answers_yes_test in Hno. by rewrite Hno.
Qed.

Lemma confirmations_default_yes_witness :
  snd (chat_turn scenario_template "fix: bug" "diff"
         (initial_state "fix: bug")
         {| chat_prompt := Entered "/apply";
            model_call := fun _ => Failed "unused";
            confirm_prompt := Entered "" |})
  = Return "fix: bug"
  /\ snd (chat_turn scenario_template "fix: bug" "diff"
            (initial_state "fix: bug") (scenario_chat (Entered "")))
     = Continue (accepted (initial_state "fix: bug") "make it more detailed"
                          scenario_proposal).
Proof.
  refine (proj1 (proj2 (confirmations_default_yes
    scenario_template "fix: bug" "diff" (initial_state "fix: bug")
    {| chat_prompt := Entered "/apply";
       model_call := fun _ => Failed "unused";
       confirm_prompt := Entered "" |}
    (scenario_chat (Entered "")) "make it more detailed" scenario_reply
    scenario_proposal "" _ _ _ _ _ _ _)) _);
    [vm_compute; reflexivity | discriminate | vm_compute; reflexivity..
     | right; reflexivity].
Defined.

(** [C8]  When the model call of a chat turn fails with the error [e], the
    turn shows the error line, adds the query and the note
    [(LLM Error: e)] to the history, asks no confirmation and changes no
    draft, and the session goes on to the next prompt: the turn neither
    returns nor lets an exception escape, whatever the yes/no prompt
    would have answered. *)
Theorem model_failure_is_not_fatal tpl seed diff st env q e :
  classify (chat_prompt env) = ChatQuery q ->
  model_call env (messages_for_llm tpl diff st q) = Failed e ->
  chat_turn tpl seed diff st env
  = (shown_before_chat st q
     ++ [Say "LLM thinking..."; Say (Py.nl +:+ "LLM Error: " +:+ e); Rule],
     Continue
       {| chat_history :=
            chat_history st
            ++ [{| msg_role := user; msg_content := q |};
                {| msg_role := assistant;
                   msg_content := "(LLM Error: " +:+ e +:+ ")" |}];
          message_being_refined_in_chat := message_being_refined_in_chat st |}).
Proof.
  intros Hc Hmodel.
  rewrite (chat_turn_chat _ _ _ _ _ _ Hc).
  unfold chat_branch, ask_model. rewrite Hmodel.
  cbn [extracted_proposal_text conversational_text_for_history_if_proposal_rejected].
  unfold record_assistant_response. cbn [Py.strip Py.lstrip Py.rstrip Py.truthy negb].
  rewrite orb_true_r, <- !app_assoc. reflexivity.
Qed.

Lemma model_failure_is_not_fatal_witness :
  snd (chat_turn scenario_template "fix: bug" "diff"
         (initial_state "fix: bug") (scenario_line "shorter please"))
  = Continue
      {| chat_history :=
           [{| msg_role := user; msg_content := "shorter please" |};
            {| msg_role := assistant; msg_content := "(LLM Error: timeout)" |}];
         message_being_refined_in_chat := "fix: bug" |}.
Proof.
  refine (f_equal snd (model_failure_is_not_fatal
    scenario_template "fix: bug" "diff" (initial_state "fix: bug")
    (scenario_line "shorter please") "shorter please" "timeout" _ _));
    vm_compute; reflexivity.
Defined.

(** [C10]  On a chat turn whose reply carries the proposal [P], the history
    at the acceptance prompt is the old history and the query. A yes adds
    exactly two entries to it, the user entry with the fixed acceptance
    note and the assistant entry holding [P]; any other answer adds exactly
    one, the assistant entry holding the conversational text of the reply,
    or the fixed rejection note when there is no such text. *)
Theorem history_after_confirmation tpl seed diff st env q raw P answer :
  classify (chat_prompt env) = ChatQuery q ->
  model_call env (messages_for_llm tpl diff st q) = Responded raw ->
  extracted_proposal_text (parse raw) = Some P ->
  confirm_prompt env = Entered answer ->
  let asked := chat_history st ++ [{| msg_role := user; msg_content := q |}] in
  let conv := conversational_text_for_history_if_proposal_rejected (parse raw) in
  (answers_yes answer ->
   exists st', snd (chat_turn tpl seed diff st env) = Continue st'
     /\ chat_history st'
        = asked
          ++ [{| msg_role := user;
                 msg_content := "(User accepted LLM's proposal to update draft)" |};
              {| msg_role := assistant; msg_content := P |}])
  /\ (~ answers_yes answer ->
      exists st', snd (chat_turn tpl seed diff st env) = Continue st'
        /\ chat_history st'
           = asked
             ++ [{| msg_role := assistant;
                    msg_content :=
                      if Py.truthy conv then conv
                      else "(LLM made a proposal which was rejected by the user.)" |}]).
Proof.
  intros Hc Hmodel Hproposal Hanswer asked conv.
  rewrite (chat_turn_chat _ _ _ _ _ _ Hc).
  rewrite (chat_branch_answer _ _ _ _ _ _ _ _ _ Hmodel Hproposal Hanswer).
  split.
  - intros Hyes. apply answers_yes_test in Hyes. rewrite Hyes.
    eexists. split; [reflexivity|]. unfold asked. cbn [accepted chat_history].
    by rewrite <- app_assoc.
  - intros Hno. apply not_answers_yes_test in Hno. rewrite Hno.
    eexists. split; [reflexivity|]. unfold asked. cbn [rejected chat_history].
    by rewrite <- app_assoc.
Qed.

Lemma history_after_confirmation_witness :
  (exists st',
      snd (chat_turn scenario_template "fix: bug" "diff"
             (initial_state "fix: bug") (scenario_chat (Entered "Y")))
      = Continue st'
      /\ chat_history st'
         = [{| msg_role := user; msg_content := "make it more detailed" |}]
           ++ [{| msg_role := user;
                  msg_content := "(User accepted LLM's proposal to update draft)" |};
               {| msg_role := assistant; msg_content := scenario_proposal |}])
  /\ (exists st',
         snd (chat_turn scenario_template "fix: bug" "diff"
                (initial_state "fix: bug") (scenario_chat (Entered "no")))
         = Continue st'
         /\ chat_history st'
            = [{| msg_role := user; msg_content := "make it more detailed" |}]
              ++ [{| msg_role := assistant; msg_content := "Sure." |}]).
Proof.
  split.
  - refine (proj1 (history_after_confirmation
      scenario_template "fix: bug" "diff" (initial_state "fix: bug")
      (scenario_chat (Entered "Y")) "make it more detailed" scenario_reply
      scenario_proposal "Y" _ _ _ _) _);
      [vm_compute; reflexivity.. | left; reflexivity].
  - refine (proj2 (history_after_confirmation
      scenario_template "fix: bug" "diff" (initial_state "fix: bug")
      (scenario_chat (Entered "no")) "make it more detailed" scenario_reply
      scenario_proposal "no" _ _ _ _) _);
      [vm_compute; reflexivity.. | intros [H|H]; vm_compute in H; discriminate H].
Defined.

(** ** Editor resolution *)

Lemma truthy_opt_Some_true o :
  Py.truthy_opt o = true -> exists e, o = Some e /\ e <> "".
Proof.
  destruct o as [e|]; [|discriminate]. simpl. intros He.
  exists e. split; [reflexivity|]. by apply truthy_true.
Qed.

(** [get_editor_from_env] returns the first candidate that is not empty;
    when there is none it returns nothing or an empty text. *)
Lemma get_editor_from_env_first env :
  match first_nonempty (editor_candidates env) with
  | Some e => get_editor_from_env env = Some e
  | None => Py.truthy_opt (get_editor_from_env env) = false
  end.
Proof.
  unfold get_editor_from_env, editor_candidates, git_configured_editor,
    Py.or_else.
  cbn [first_nonempty].
  destruct (Py.truthy_opt (environ env !! "LLM_GIT_COMMIT_EDITOR")) eqn:Hllm.
  { destruct (truthy_opt_Some_true _ Hllm) as (e & -> & _). reflexivity. }
  assert (Hstandard :
    match (if Py.truthy_opt (environ env !! "VISUAL")
           then environ env !! "VISUAL"
           else if Py.truthy_opt (environ env !! "EDITOR")
                then environ env !! "EDITOR" else None) with
    | Some e =>
        (if Py.truthy_opt (environ env !! "VISUAL")
         then environ env !! "VISUAL" else environ env !! "EDITOR") = Some e
    | None =>
        Py.truthy_opt
          (if Py.truthy_opt (environ env !! "VISUAL")
           then environ env !! "VISUAL" else environ env !! "EDITOR") = false
    end).
  { destruct (Py.truthy_opt (environ env !! "VISUAL")) eqn:Hvisual.
    - destruct (truthy_opt_Some_true _ Hvisual) as (e & -> & _). reflexivity.
    - destruct (Py.truthy_opt (environ env !! "EDITOR")) eqn:Heditor;
        [|reflexivity].
      destruct (truthy_opt_Some_true _ Heditor) as (e & -> & _). reflexivity. }
  destruct (git_config_core_editor env) as [returncode stdout|];
    [|exact Hstandard].
  destruct ((returncode =? 0)%Z && Py.truthy (Py.strip stdout)) eqn:Hgit;
    [|exact Hstandard].
  apply andb_true_iff in Hgit as (_ & Hout).
  cbn [Py.truthy_opt]. rewrite Hout. reflexivity.
Qed.

Lemma is_command_eqb c :
  is_command c ->
  Py.truthy c = true /\ String.eqb c "env" = false
  /\ String.eqb c "internal" = false.
Proof.
  intros (Hne & Henv & Hint). split; [by apply truthy_true|].
  split; by apply String.eqb_neq.
Qed.

(** The flag of [resolve_editor] itself, which [git_commit_command] never
    sets, only turns the internal setting into the environment one: a
    persisted command stays. *)
Lemma resolve_editor_flag_keeps_command config env c :
  is_command c -> config !! "editor" = Some c ->
  resolve_editor config true env = ("command", Some c).
Proof.
  intros Hc Hconfig. destruct (is_command_eqb c Hc) as (_ & Henv & Hint).
  unfold resolve_editor. rewrite Hconfig. cbn [default from_option id].
  rewrite Hint, andb_false_r, Hint, Henv. reflexivity.
Qed.

(** [C9]  The editor [git_commit_command] settles on, by precedence: a
    command given with the option wins over everything; the option given
    without a value asks the environment, whatever is persisted; without
    the option [resolve_editor] decides, and a persisted command is used,
    a persisted environment setting asks the environment, and otherwise
    the built-in editor is used. The environment is asked for the
    tool-specific variable, git's configured editor, VISUAL and EDITOR in
    this order, the first that is not empty being the answer; when there is
    none the message is edited in the built-in editor. *)
Theorem editor_precedence (config : gmap string string) (env : process_env) :
  (forall c, is_command c ->
     determine_editor_mode config (Some c) env = ("command", Some c)
     /\ editing_surface_of (determine_editor_mode config (Some c) env)
        = ExternalEditor c)
  /\ (determine_editor_mode config (Some "env") env
      = ("env", get_editor_from_env env)
      /\ match first_nonempty (editor_candidates env) with
         | Some e =>
             editing_surface_of (determine_editor_mode config (Some "env") env)
             = ExternalEditor e
         | None =>
             is_built_in
               (editing_surface_of (determine_editor_mode config (Some "env") env))
         end)
  /\ determine_editor_mode config None env = resolve_editor config false env
  /\ (forall c, is_command c -> config !! "editor" = Some c ->
        determine_editor_mode config None env = ("command", Some c)
        /\ editing_surface_of (determine_editor_mode config None env)
           = ExternalEditor c)
  /\ (config !! "editor" = Some "env" ->
      match first_nonempty (editor_candidates env) with
      | Some e =>
          determine_editor_mode config None env = ("env", Some e)
          /\ editing_surface_of (determine_editor_mode config None env)
             = ExternalEditor e
      | None =>
          determine_editor_mode config None env = ("internal", None)
          /\ editing_surface_of (determine_editor_mode config None env)
             = BuiltInEditor
      end)
  /\ (config !! "editor" = Some "internal" \/ config !! "editor" = None ->
      determine_editor_mode config None env = ("internal", None)
      /\ editing_surface_of (determine_editor_mode config None env)
         = BuiltInEditor)
  /\ match first_nonempty (editor_candidates env) with
     | Some e => get_editor_from_env env = Some e /\ e <> ""
     | None => Py.truthy_opt (get_editor_from_env env) = false
     end.
Proof.
  pose proof (get_editor_from_env_first env) as Henv.
  assert (Hfirst : forall e,
    first_nonempty (editor_candidates env) = Some e -> Py.truthy e = true).
  { intros e. generalize (editor_candidates env).
    induction l as [|c l IH]; [discriminate|]. cbn [first_nonempty].
    destruct (Py.truthy_opt c) eqn:Hc; [|exact IH].
    intros ->. exact Hc. }
  split; [|split; [|split; [|split; [|split; [|split]]]]].
  - intros c Hc. destruct (is_command_eqb c Hc) as (Htruthy & Hnot_env & Hnot_int).
    unfold determine_editor_mode. rewrite Htruthy, Hnot_env, Hnot_int.
    split; [reflexivity|]. unfold editing_surface_of.
    replace (String.eqb "command" "internal") with false by reflexivity.
    by rewrite Htruthy.
  - split; [reflexivity|].
    change (determine_editor_mode config (Some "env") env)
      with ("env", get_editor_from_env env).
    unfold editing_surface_of, is_built_in.
    replace (String.eqb "env" "internal") with false by reflexivity.
    destruct (first_nonempty (editor_candidates env)) as [e|] eqn:He.
    + rewrite Henv, (Hfirst e eq_refl). reflexivity.
    + destruct (get_editor_from_env env) as [cmd|]; [|by right].
      cbn [Py.truthy_opt] in Henv. rewrite Henv. by right.
  - reflexivity.
  - intros c Hc Hconfig.
    destruct (is_command_eqb c Hc) as (Htruthy & Hnot_env & Hnot_int).
    unfold determine_editor_mode, resolve_editor. rewrite Hconfig.
    cbn [default from_option id andb]. rewrite Hnot_int, Hnot_env.
    split; [reflexivity|]. unfold editing_surface_of.
    replace (String.eqb "command" "internal") with false by reflexivity.
    by rewrite Htruthy.
  - intros Hconfig. unfold determine_editor_mode, resolve_editor.
    rewrite Hconfig. cbn [default from_option id andb].
    replace (String.eqb "env" "internal") with false by reflexivity.
    replace (String.eqb "env" "env") with true by reflexivity.
    destruct (first_nonempty (editor_candidates env)) as [e|] eqn:He.
    + rewrite Henv. cbn [Py.truthy_opt]. rewrite (Hfirst e eq_refl).
      split; [reflexivity|]. unfold editing_surface_of.
      replace (String.eqb "env" "internal") with false by reflexivity.
      by rewrite (Hfirst e eq_refl).
    + rewrite Henv. split; reflexivity.
  - intros Hconfig. unfold determine_editor_mode, resolve_editor.
    assert (Hdefault : default "internal" (config !! "editor") = "internal")
      by (destruct Hconfig as [-> | ->]; reflexivity).
    rewrite Hdefault. split; reflexivity.
  - destruct (first_nonempty (editor_candidates env)) as [e|] eqn:He;
      [|exact Henv].
    split; [exact Henv|]. apply truthy_true. exact (Hfirst e eq_refl).
Qed.

Lemma editor_precedence_witness :
  determine_editor_mode {["editor" := "internal"]} (Some "vim")
    {| environ := {["EDITOR" := "nano"]}; git_config_core_editor := GitNotFound |}
  = ("command", Some "vim").
Proof.
  refine (proj1 (proj1 (editor_precedence {["editor" := "internal"]}
    {| environ := {["EDITOR" := "nano"]}; git_config_core_editor := GitNotFound |})
    "vim" _)).
  repeat split; discriminate.
Defined.

(** * Further properties of the session and of the extraction *)

(** ** Trimming twice *)

Lemma rstrip_idem s : Py.rstrip (Py.rstrip s) = Py.rstrip s.
Proof.
  induction s as [|c s IH]; [reflexivity|]. simpl.
  destruct (Py.rstrip s) as [|d r] eqn:Hr.
  - destruct (Py.isspace c) eqn:Hc; [reflexivity|]. simpl. by rewrite Hc.
  - change (Py.rstrip (String c (String d r)))
      with (match Py.rstrip (String d r) with
            | EmptyString =>
                if Py.isspace c then EmptyString else String c EmptyString
            | r' => String c r'
            end).
    by rewrite IH.
Qed.

Lemma lstrip_starts_clean s : starts_clean (Py.lstrip s).
Proof.
  induction s as [|c s IH]; [exact I|]. simpl.
  destruct (Py.isspace c) eqn:Hc; [exact IH | exact Hc].
Qed.

Lemma lstrip_fixed s : starts_clean s -> Py.lstrip s = s.
Proof. destruct s as [|c s]; [reflexivity|]. simpl. by intros ->. Qed.

Lemma rstrip_starts_clean s : starts_clean s -> starts_clean (Py.rstrip s).
Proof.
  destruct s as [|c s]; [intros; exact I|]. simpl. intros Hc.
  destruct (Py.rstrip s); [rewrite Hc|]; exact Hc.
Qed.

Lemma strip_idem s : Py.strip (Py.strip s) = Py.strip s.
Proof.
  unfold Py.strip.
  rewrite (lstrip_fixed (Py.rstrip (Py.lstrip s))).
  - apply rstrip_idem.
  - apply rstrip_starts_clean, lstrip_starts_clean.
Qed.

Lemma strip_empty : Py.strip "" = "".
Proof. reflexivity. Qed.

(** ** Where a trimmed text sits in the text *)

Lemma lstrip_split s : exists w, s = w +:+ Py.lstrip s.
Proof.
  induction s as [|c s (w & IH)]; [by exists ""|]. simpl.
  destruct (Py.isspace c).
  - exists (String c w). rewrite append_String. by f_equal.
  - by exists "".
Qed.

Lemma rstrip_split s : exists w, s = Py.rstrip s +:+ w.
Proof.
  induction s as [|c s (w & IH)]; [by exists ""|]. simpl.
  destruct (Py.rstrip s) as [|d r].
  - destruct (Py.isspace c).
    + exists (String c s). reflexivity.
    + exists s. reflexivity.
  - exists w. rewrite append_String. by f_equal.
Qed.

Lemma strip_split s : exists w1 w2, s = w1 +:+ Py.strip s +:+ w2.
Proof.
  destruct (lstrip_split s) as (w1 & H1).
  destruct (rstrip_split (Py.lstrip s)) as (w2 & H2).
  exists w1, w2. unfold Py.strip. by rewrite <- H2.
Qed.

Lemma substring_append_l m b : forall k n,
  k + n <= String.length m ->
  String.substring k n (m +:+ b) = String.substring k n m.
Proof.
  induction m as [|c m IH]; intros k n Hfit.
  - simpl in Hfit. assert (k = 0) as -> by lia. assert (n = 0) as -> by lia.
    by destruct b.
  - rewrite append_String. destruct k as [|k]; simpl.
    + destruct n as [|n]; [reflexivity|]. f_equal. apply IH. simpl in Hfit. lia.
    + apply IH. simpl in Hfit. lia.
Qed.

Lemma occurs_at_append_l sub m b k :
  sub <> "" -> occurs_at sub m k -> occurs_at sub (m +:+ b) k.
Proof.
  intros Hne Hocc. unfold occurs_at.
  rewrite substring_append_l; [exact Hocc|].
  exact (occurrence_fits _ _ _ Hne Hocc).
Qed.

Lemma occurs_at_append_r sub a m k :
  occurs_at sub m k -> occurs_at sub (a +:+ m) (String.length a + k).
Proof.
  unfold occurs_at. intros Hocc.
  by rewrite substring_slice_from, slice_from_append.
Qed.

(** What is read in the trimmed text is read in the text. *)
Lemma occurs_at_strip sub s k :
  sub <> "" -> occurs_at sub (Py.strip s) k ->
  exists k', occurs_at sub s k' /\ k' + String.length sub <= String.length s.
Proof.
  intros Hne Hocc. destruct (strip_split s) as (w1 & w2 & Hs).
  exists (String.length w1 + k).
  assert (Hocc' : occurs_at sub s (String.length w1 + k)).
  { rewrite Hs. apply occurs_at_append_r. by apply occurs_at_append_l. }
  split; [exact Hocc'|]. exact (occurrence_fits _ _ _ Hne Hocc').
Qed.

(** What is read in [s[i:j]] is read in [s], before [j]. *)
Lemma occurs_at_slice sub s i j k :
  sub <> "" -> occurs_at sub (Py.slice s i j) k ->
  k + String.length sub <= String.length (Py.slice s i j) ->
  occurs_at sub s (i + k) /\ i + k + String.length sub <= j.
Proof.
  intros Hne Hocc Hfit.
  assert (Hlen : String.length (Py.slice s i j) <= j - i).
  { unfold Py.slice. rewrite length_substring. lia. }
  assert (Hslice : Py.slice s i j = Py.slice_to (Py.slice_from s i) (j - i)).
  { unfold Py.slice, Py.slice_to.
    rewrite <- substring_slice_from. f_equal. lia. }
  assert (Hpos : 0 < String.length sub)
    by (destruct sub; [done | simpl; lia]).
  split; [|lia].
  unfold occurs_at. rewrite substring_slice_from.
  rewrite (slice_to_slice_from (Py.slice_from s i) (j - i)).
  apply occurs_at_append_l; [exact Hne|]. by rewrite <- Hslice.
Qed.

(** [X1]  Whatever the reply, the extraction yields at most two
    conversational segments, every segment and the conversational text for
    the history are trimmed, and a proposal, when there is one, is trimmed
    and not empty; when the reply is not blank no segment is empty. *)
Theorem parse_result_shape raw :
  length (conversational_parts_to_print (parse raw)) <= 2
  /\ Forall (fun s => Py.strip s = s) (conversational_parts_to_print (parse raw))
  /\ (Py.strip raw <> "" ->
      Forall (fun s => s <> "") (conversational_parts_to_print (parse raw)))
  /\ Py.strip (conversational_text_for_history_if_proposal_rejected (parse raw))
     = conversational_text_for_history_if_proposal_rejected (parse raw)
  /\ (forall P, extracted_proposal_text (parse raw) = Some P ->
                P <> "" /\ Py.strip P = P).
Proof.
  unfold parse.
  destruct (Py.find raw PROPOSED_COMMIT_MARKER_START 0) as [si|];
    [destruct (Py.find raw PROPOSED_COMMIT_MARKER_END _) as [ei|]|];
    cbn [conversational_parts_to_print extracted_proposal_text
         conversational_text_for_history_if_proposal_rejected].
  - set (before := Py.strip (Py.slice_to raw si)).
    set (after := Py.strip (Py.slice_from raw _)).
    set (between := Py.strip (Py.slice raw _ ei)).
    assert (Hb : Py.strip before = before) by apply strip_idem.
    assert (Ha : Py.strip after = after) by apply strip_idem.
    split; [|split; [|split; [|split]]].
    + destruct (Py.truthy before), (Py.truthy after); simpl; lia.
    + destruct (Py.truthy before), (Py.truthy after); simpl;
        repeat constructor; assumption.
    + intros _.
      destruct (Py.truthy before) eqn:Htb, (Py.truthy after) eqn:Hta; simpl;
        repeat constructor; by apply truthy_true.
    + apply strip_idem.
    + intros P. destruct (Py.truthy between) eqn:HP; [|discriminate].
      intros [= <-]. split; [by apply truthy_true | apply strip_idem].
  - split; [simpl; lia|]. split; [repeat constructor; apply strip_idem|].
    split; [intros Hraw; repeat constructor; exact Hraw|].
    split; [apply strip_idem | discriminate].
  - split; [simpl; lia|]. split; [repeat constructor; apply strip_idem|].
    split; [intros Hraw; repeat constructor; exact Hraw|].
    split; [apply strip_idem | discriminate].
Qed.

Lemma parse_result_shape_witness :
  scenario_proposal <> "" /\ Py.strip scenario_proposal = scenario_proposal.
Proof.
  refine (proj2 (proj2 (proj2 (proj2 (parse_result_shape scenario_reply))))
            scenario_proposal _).
  vm_compute. reflexivity.
Defined.

(** [X2]  A proposal never holds the end marker: the text between the
    markers stops at the first end marker behind the start marker. *)
Theorem proposal_excludes_end_marker raw P k :
  extracted_proposal_text (parse raw) = Some P ->
  ~ occurs_at PROPOSED_COMMIT_MARKER_END P k.
Proof.
  unfold parse.
  destruct (Py.find raw PROPOSED_COMMIT_MARKER_START 0) as [si|];
    [|discriminate].
  destruct (Py.find raw PROPOSED_COMMIT_MARKER_END _) as [ei|] eqn:Hfe;
    [|discriminate].
  cbn [extracted_proposal_text].
  destruct (Py.truthy _); [|discriminate]. intros [= <-] Hocc.
  destruct (find_Some _ _ _ _ Hfe) as (_ & _ & Hfirst).
  destruct (occurs_at_strip _ _ _ END_not_empty Hocc) as (k' & Hocc' & Hfit).
  destruct (occurs_at_slice _ _ _ _ _ END_not_empty Hocc' Hfit) as (Hraw & Hlt).
  change (String.length PROPOSED_COMMIT_MARKER_END) with 27 in Hlt.
  change (String.length PROPOSED_COMMIT_MARKER_START) with 29 in Hfirst.
  refine (Hfirst _ _ _ Hraw); lia.
Qed.

Lemma proposal_excludes_end_marker_witness :
  ~ occurs_at PROPOSED_COMMIT_MARKER_END
      ("one " +:+ PROPOSED_COMMIT_MARKER_START +:+ " two") 0.
Proof.
  apply (proposal_excludes_end_marker
    (PROPOSED_COMMIT_MARKER_START +:+ " one " +:+ PROPOSED_COMMIT_MARKER_START
     +:+ " two " +:+ PROPOSED_COMMIT_MARKER_END +:+ " three "
     +:+ PROPOSED_COMMIT_MARKER_END)).
  vm_compute. reflexivity.
Defined.

(** ** How a turn can end *)

(** The chat branch never returns; when the loop goes on, the history has
    grown by the query and by what the turn recorded after it, and the
    draft is the old one or the proposal of the reply. *)
Lemma chat_branch_outcome tpl diff env st q shown :
  match snd (chat_branch tpl diff env st q shown) with
  | Continue st' =>
      exists recorded,
        chat_history st'
        = chat_history st ++ {| msg_role := user; msg_content := q |} :: recorded
        /\ no_system_entry recorded
        /\ (message_being_refined_in_chat st' = message_being_refined_in_chat st
            \/ exists raw answer,
                 model_call env (messages_for_llm tpl diff st q) = Responded raw
                 /\ extracted_proposal_text (parse raw)
                    = Some (message_being_refined_in_chat st')
                 /\ confirm_prompt env = Entered answer
                 /\ answers_yes answer)
  | Return _ => False
  | Raise _ =>
      exists raw P,
        model_call env (messages_for_llm tpl diff st q) = Responded raw
        /\ extracted_proposal_text (parse raw) = Some P
        /\ forall answer, confirm_prompt env <> Entered answer
  end.
Proof.
  assert (Hrecord : forall history' draft response text shown',
    snd (record_assistant_response history' draft response text shown')
    = Continue {| chat_history :=
                    history' ++ (if Py.truthy response
                                    || negb (Py.truthy (Py.strip text))
                                 then [{| msg_role := assistant;
                                          msg_content := response |}]
                                 else []);
                  message_being_refined_in_chat := draft |}).
  { intros. unfold record_assistant_response. cbn [snd].
    destruct (_ || _); [reflexivity|]. by rewrite app_nil_r. }
  assert (Hentries : forall (b : bool) response,
    no_system_entry (if b then [{| msg_role := assistant;
                                   msg_content := response |}] else [])).
  { intros [] response; repeat constructor. discriminate. }
  unfold chat_branch.
  destruct (model_call env (messages_for_llm tpl diff st q)) as [raw|e] eqn:Hmodel;
    unfold ask_model.
  - destruct (negb (Py.truthy (Py.strip raw))) eqn:Hblank.
    + cbn [extracted_proposal_text]. rewrite Hrecord. eexists.
      rewrite <- app_assoc. split; [reflexivity|]. split; [apply Hentries|].
      by left.
    + destruct (extracted_proposal_text (parse raw)) as [P|] eqn:HP.
      * destruct (negb (Py.truthy P)).
        { rewrite Hrecord. eexists. rewrite <- app_assoc.
          split; [reflexivity|]. split; [apply Hentries|]. by left. }
        destruct (confirm_prompt env) as [answer| | |] eqn:Hanswer;
          cbn [await_confirmation snd];
          try (exists raw, P; repeat split; [exact HP | discriminate]).
        destruct (_ || _) eqn:Hyes; rewrite Hrecord.
        -- eexists. rewrite <- !app_assoc. cbn [app].
           split; [reflexivity|]. split.
           ++ constructor; [discriminate|]. apply Hentries.
           ++ right. exists raw, answer. apply answers_yes_test in Hyes.
              by repeat split.
        -- eexists. rewrite <- app_assoc. split; [reflexivity|].
           split; [apply Hentries|]. by left.
      * rewrite Hrecord. eexists. rewrite <- app_assoc.
        split; [reflexivity|]. split; [apply Hentries|]. by left.
  - cbn [extracted_proposal_text]. rewrite Hrecord. eexists.
    rewrite <- app_assoc. split; [reflexivity|]. split; [apply Hentries|].
    by left.
Qed.

(** The [/apply] branch leaves the state alone when the loop goes on, and
    returns nothing but the current draft, which is then not blank, on an
    answer that is a yes. *)
Lemma apply_branch_outcome env st shown :
  match snd (apply_branch env st shown) with
  | Continue st' => st' = st
  | Return result =>
      result = message_being_refined_in_chat st
      /\ Py.strip result <> ""
      /\ exists answer, confirm_prompt env = Entered answer /\ answers_yes answer
  | Raise _ =>
      Py.strip (message_being_refined_in_chat st) <> ""
      /\ forall answer, confirm_prompt env <> Entered answer
  end.
Proof.
  unfold apply_branch.
  destruct (Py.truthy (Py.strip (message_being_refined_in_chat st))) eqn:Hdraft;
    cbn [negb snd]; [|reflexivity].
  apply truthy_true in Hdraft.
  destruct (confirm_prompt env) as [answer| | |];
    cbn [await_confirmation snd]; try (split; [exact Hdraft | discriminate]).
  destruct (_ || _) eqn:Hyes; cbn [snd]; [|reflexivity].
  split; [reflexivity|]. split; [exact Hdraft|].
  exists answer. split; [reflexivity|]. by apply answers_yes_test.
Qed.

(** The three ways through an iteration. *)
Lemma chat_turn_cases tpl seed diff st env :
  (classify (chat_prompt env) = Cancel
   /\ snd (chat_turn tpl seed diff st env) = Return seed)
  \/ (classify (chat_prompt env) = Apply
      /\ exists shown, chat_turn tpl seed diff st env = apply_branch env st shown)
  \/ (exists q, classify (chat_prompt env) = ChatQuery q
      /\ chat_turn tpl seed diff st env
         = chat_branch tpl diff env st q (shown_before_chat st q)).
Proof.
  destruct (classify (chat_prompt env)) as [| |q] eqn:Hc.
  - left. split; [reflexivity|]. by apply chat_turn_cancel.
  - right. left. split; [reflexivity|]. by apply chat_turn_apply.
  - right. right. exists q. split; [reflexivity|]. by apply chat_turn_chat.
Qed.

(** What an iteration returns: the seed or the current draft. *)
Lemma chat_turn_return_value tpl seed diff st env result :
  snd (chat_turn tpl seed diff st env) = Return result ->
  result = seed \/ result = message_being_refined_in_chat st.
Proof.
  intros Hreturn.
  destruct (chat_turn_cases tpl seed diff st env)
    as [(Hc & Hturn) | [(Hc & shown & Hturn) | (q & Hc & Hturn)]].
  - left. rewrite Hturn in Hreturn. by injection Hreturn.
  - right. rewrite Hturn in Hreturn.
    pose proof (apply_branch_outcome env st shown) as Hout.
    rewrite Hreturn in Hout. tauto.
  - exfalso. rewrite Hturn in Hreturn.
    pose proof (chat_branch_outcome tpl diff env st q (shown_before_chat st q))
      as Hout.
    by rewrite Hreturn in Hout.
Qed.

(** [X3]  A turn returns in two ways only: on the Cancel command, with
    the draft the session was started with, and on the Apply command
    confirmed by a yes, with the current draft, which is then not blank. A
    chat query never ends the session with a result. *)
Theorem turn_returns_on_cancel_or_confirmed_apply tpl seed diff st env result :
  snd (chat_turn tpl seed diff st env) = Return result ->
  (classify (chat_prompt env) = Cancel /\ result = seed)
  \/ (classify (chat_prompt env) = Apply
      /\ result = message_being_refined_in_chat st
      /\ Py.strip result <> ""
      /\ exists answer, confirm_prompt env = Entered answer /\ answers_yes answer).
Proof.
  intros Hreturn.
  destruct (chat_turn_cases tpl seed diff st env)
    as [(Hc & Hturn) | [(Hc & shown & Hturn) | (q & Hc & Hturn)]].
  - left. split; [exact Hc|]. rewrite Hturn in Hreturn. by injection Hreturn.
  - right. split; [exact Hc|]. rewrite Hturn in Hreturn.
    pose proof (apply_branch_outcome env st shown) as Hout.
    by rewrite Hreturn in Hout.
  - exfalso. rewrite Hturn in Hreturn.
    pose proof (chat_branch_outcome tpl diff env st q (shown_before_chat st q))
      as Hout.
    by rewrite Hreturn in Hout.
Qed.

Lemma turn_returns_on_cancel_or_confirmed_apply_witness :
  (classify (Entered "/apply") = Cancel /\ "fix: bug" = "other")
  \/ (classify (Entered "/apply") = Apply
      /\ "fix: bug" = "fix: bug"
      /\ Py.strip "fix: bug" <> ""
      /\ exists answer, Entered "" = Entered answer /\ answers_yes answer).
Proof.
  apply (turn_returns_on_cancel_or_confirmed_apply
    scenario_template "other" "diff" (initial_state "fix: bug")
    {| chat_prompt := Entered "/apply";
       model_call := fun _ => Failed "unused";
       confirm_prompt := Entered "" |} "fix: bug").
  vm_compute. reflexivity.
Defined.

(** When the loop goes on after a turn, the draft is the old one or a
    proposal accepted on that turn, and the history has only gained user
    and assistant entries. *)
Lemma chat_turn_continue tpl seed diff st env st' :
  snd (chat_turn tpl seed diff st env) = Continue st' ->
  (message_being_refined_in_chat st' = message_being_refined_in_chat st
   \/ accepted_on_turn tpl diff st env (message_being_refined_in_chat st'))
  /\ exists added,
       chat_history st' = chat_history st ++ added /\ no_system_entry added.
Proof.
  intros Hcontinue.
  destruct (chat_turn_cases tpl seed diff st env)
    as [(Hc & Hturn) | [(Hc & shown & Hturn) | (q & Hc & Hturn)]].
  - rewrite Hturn in Hcontinue. discriminate.
  - rewrite Hturn in Hcontinue.
    pose proof (apply_branch_outcome env st shown) as Hout.
    rewrite Hcontinue in Hout. subst st'. split; [by left|].
    exists []. split; [by rewrite app_nil_r | constructor].
  - rewrite Hturn in Hcontinue.
    pose proof (chat_branch_outcome tpl diff env st q (shown_before_chat st q))
      as Hout.
    rewrite Hcontinue in Hout.
    destruct Hout as (recorded & Hhistory & Hroles & Hdraft). split.
    + destruct Hdraft as [Hsame | (raw & answer & Hmodel & HP & Hanswer & Hyes)];
        [by left|].
      right. by exists q, raw, answer.
    + exists ({| msg_role := user; msg_content := q |} :: recorded).
      split; [exact Hhistory|]. constructor; [discriminate | exact Hroles].
Qed.

(** A session that has ended stays ended, whatever further answers are
    there. *)
Lemma chat_loop_ended tpl seed diff before : forall st after,
  (forall st', snd (chat_loop tpl seed diff st before) <> Prompting st') ->
  snd (chat_loop tpl seed diff st (before ++ after))
  = snd (chat_loop tpl seed diff st before).
Proof.
  induction before as [|env before IH]; intros st after Hended.
  - exfalso. by apply (Hended st).
  - change ((env :: before) ++ after) with (env :: before ++ after).
    rewrite !chat_loop_step. rewrite chat_loop_step in Hended.
    destruct (snd (chat_turn tpl seed diff st env)) as [st1|result|e];
      [|reflexivity..].
    by apply IH.
Qed.

Lemma accepted_in_session_extend tpl seed diff envs more draft :
  accepted_in_session tpl seed diff envs draft ->
  accepted_in_session tpl seed diff (envs ++ more) draft.
Proof.
  intros (before & env & after & st & -> & Hbefore & Haccepted).
  exists before, env, (after ++ more), st.
  split; [by rewrite <- app_assoc|]. by split.
Qed.

(** [X4]  Throughout a session the current draft is the draft the session
    was started with or a proposal the model made in this session, in
    reply to a chat query of one of its turns, and that was accepted on
    that turn; and so is the result of a session that returns. Nothing
    else ever becomes the draft. *)
Theorem draft_is_seed_or_accepted_proposal tpl seed diff envs :
  match snd (chat_for_refinement tpl seed diff envs) with
  | Prompting st =>
      message_being_refined_in_chat st = seed
      \/ accepted_in_session tpl seed diff envs (message_being_refined_in_chat st)
  | Returned result =>
      result = seed \/ accepted_in_session tpl seed diff envs result
  | Raised _ => True
  end.
Proof.
  rewrite chat_for_refinement_loop.
  induction envs as [|env envs IH] using rev_ind; [by left|].
  destruct (snd (chat_loop tpl seed diff (initial_state seed) envs))
    as [result|e|st] eqn:Hbefore.
  - rewrite chat_loop_ended, Hbefore by (rewrite Hbefore; discriminate).
    destruct IH as [-> | IH]; [by left|].
    right. by apply accepted_in_session_extend.
  - by rewrite chat_loop_ended, Hbefore by (rewrite Hbefore; discriminate).
  - rewrite (chat_loop_app _ _ _ _ _ _ _ Hbefore), chat_loop_step.
    destruct (snd (chat_turn tpl seed diff st env)) as [st'|result|e] eqn:Hturn;
      [| |exact I].
    + cbn [chat_loop snd].
      destruct (chat_turn_continue _ _ _ _ _ _ Hturn) as ([-> | Haccepted] & _).
      * destruct IH as [-> | IH]; [by left|].
        right. by apply accepted_in_session_extend.
      * right. by exists envs, env, [], st.
    + destruct (chat_turn_return_value _ _ _ _ _ _ Hturn) as [-> | ->];
        [by left|].
      destruct IH as [-> | IH]; [by left|].
      right. by apply accepted_in_session_extend.
Qed.

(** [X5]  The history of a session only grows, and only by user and
    assistant entries: whatever the turns, the history at a later prompt is
    the earlier history with such entries added at its end. *)
Theorem history_only_grows tpl seed diff st envs :
  match snd (chat_loop tpl seed diff st envs) with
  | Prompting st' =>
      exists added,
        chat_history st' = chat_history st ++ added /\ no_system_entry added
  | Returned _ | Raised _ => True
  end.
Proof.
  revert st. induction envs as [|env envs IH]; intros st.
  - exists []. split; [by rewrite app_nil_r | constructor].
  - rewrite chat_loop_step.
    destruct (snd (chat_turn tpl seed diff st env)) as [st1|result|e] eqn:Hturn;
      [|exact I..].
    destruct (chat_turn_continue _ _ _ _ _ _ Hturn)
      as (_ & added1 & Hadded1 & Hroles1).
    specialize (IH st1).
    destruct (snd (chat_loop tpl seed diff st1 envs)) as [result|e|st'];
      [exact I..|].
    destruct IH as (added & Hadded & Hroles).
    exists (added1 ++ added). split.
    + by rewrite Hadded, Hadded1, app_assoc.
    + by apply Forall_app.
Qed.

(** [X6]  A turn on the Cancel or the Apply command does not consult the
    model: it goes the same way with any other model behind it, and when
    the loop goes on after it the history and the draft are untouched. *)
Theorem commands_bypass_model tpl seed diff st env model :
  classify (chat_prompt env) = Cancel \/ classify (chat_prompt env) = Apply ->
  chat_turn tpl seed diff st (with_model env model)
  = chat_turn tpl seed diff st env
  /\ forall st', snd (chat_turn tpl seed diff st env) = Continue st' -> st' = st.
Proof.
  intros Hc. split.
  - unfold chat_turn, classify in *. cbn [with_model chat_prompt].
    destruct (dispatch _); [reflexivity.. |]. by destruct Hc.
  - intros st' Hcontinue.
    destruct (chat_turn_cases tpl seed diff st env)
      as [(_ & Hturn) | [(_ & shown & Hturn) | (q & Hq & _)]].
    + rewrite Hturn in Hcontinue. discriminate.
    + rewrite Hturn in Hcontinue.
      pose proof (apply_branch_outcome env st shown) as Hout.
      by rewrite Hcontinue in Hout.
    + rewrite Hq in Hc. by destruct Hc.
Qed.

Lemma commands_bypass_model_witness :
  chat_turn scenario_template "fix: bug" "diff" (initial_state "fix: bug")
    (with_model (scenario_line "/APPLY") (fun _ => Responded scenario_reply))
  = chat_turn scenario_template "fix: bug" "diff" (initial_state "fix: bug")
      (scenario_line "/APPLY").
Proof.
  refine (proj1 (commands_bypass_model
    scenario_template "fix: bug" "diff" (initial_state "fix: bug")
    (scenario_line "/APPLY") (fun _ => Responded scenario_reply) _)).
  right. vm_compute. reflexivity.
Defined.

(** [X7]  A reply that is not blank but leaves nothing to record, having
    no proposal and no conversational text (an empty pair of markers and
    nothing around it), is dropped from the history: the turn adds the
    query and no assistant entry, and the draft stays. *)
Theorem reply_without_content_is_not_recorded tpl seed diff st env q raw :
  classify (chat_prompt env) = ChatQuery q ->
  model_call env (messages_for_llm tpl diff st q) = Responded raw ->
  Py.strip raw <> "" ->
  extracted_proposal_text (parse raw) = None ->
  conversational_text_for_history_if_proposal_rejected (parse raw) = "" ->
  snd (chat_turn tpl seed diff st env)
  = Continue
      {| chat_history :=
           chat_history st ++ [{| msg_role := user; msg_content := q |}];
         message_being_refined_in_chat := message_being_refined_in_chat st |}.
Proof.
  intros Hc Hmodel Hraw HP Hconv. apply truthy_true in Hraw.
  rewrite (chat_turn_chat _ _ _ _ _ _ Hc).
  unfold chat_branch, ask_model. rewrite Hmodel, Hraw. cbn [negb].
  rewrite HP, Hconv. unfold record_assistant_response.
  rewrite Hraw. reflexivity.
Qed.

Lemma reply_without_content_is_not_recorded_witness :
  snd (chat_turn scenario_template "fix: bug" "diff" (initial_state "fix: bug")
         {| chat_prompt := Entered "shorter";
            model_call := fun _ =>
              Responded (PROPOSED_COMMIT_MARKER_START +:+ Py.nl
                         +:+ PROPOSED_COMMIT_MARKER_END);
            confirm_prompt := Entered "" |})
  = Continue
      {| chat_history := [] ++ [{| msg_role := user; msg_content := "shorter" |}];
         message_being_refined_in_chat := "fix: bug" |}.
Proof.
  apply (reply_without_content_is_not_recorded
    scenario_template "fix: bug" "diff" (initial_state "fix: bug")
    {| chat_prompt := Entered "shorter";
       model_call := fun _ =>
         Responded (PROPOSED_COMMIT_MARKER_START +:+ Py.nl
                    +:+ PROPOSED_COMMIT_MARKER_END);
       confirm_prompt := Entered "" |}
    "shorter"
    (PROPOSED_COMMIT_MARKER_START +:+ Py.nl +:+ PROPOSED_COMMIT_MARKER_END));
    [vm_compute; reflexivity | vm_compute; reflexivity | vm_compute; discriminate
    | vm_compute; reflexivity | vm_compute; reflexivity].
Defined.

(** * The diff handed to the model *)

Lemma length_slice_to s n :
  String.length (Py.slice_to s n) = Nat.min n (String.length s).
Proof. unfold Py.slice_to. rewrite length_substring. lia. Qed.

(** [X8]  Under a positive limit a diff within the limit goes on as it is;
    a longer one is cut to its first [max_chars] characters and the
    truncation note is added, so what goes on is 22 characters longer than
    the limit. *)
Theorem truncate_diff_positive_limit diff_output max_chars :
  (0 < max_chars)%Z ->
  ((Z.of_nat (String.length diff_output) <= max_chars)%Z ->
   truncate_diff diff_output max_chars = (false, diff_output))
  /\ ((max_chars < Z.of_nat (String.length diff_output))%Z ->
      truncate_diff diff_output max_chars
      = (true, Py.slice_to diff_output (Z.to_nat max_chars) +:+ truncation_note)
      /\ String.length (snd (truncate_diff diff_output max_chars))
         = Z.to_nat max_chars + 22
      /\ Py.slice_to (snd (truncate_diff diff_output max_chars))
                     (Z.to_nat max_chars)
         = Py.slice_to diff_output (Z.to_nat max_chars)).
Proof.
  intros Hpos. unfold truncate_diff, slice_to_int. split; intros Hlen.
  - destruct (Z.gtb_spec (Z.of_nat (String.length diff_output)) max_chars);
      [lia | reflexivity].
  - destruct (Z.gtb_spec (Z.of_nat (String.length diff_output)) max_chars);
      [|lia].
    destruct (Z.leb_spec 0 max_chars); [|lia]. cbn [snd].
    assert (Hcut : String.length (Py.slice_to diff_output (Z.to_nat max_chars))
                   = Z.to_nat max_chars)
      by (rewrite length_slice_to; lia).
    split; [reflexivity|]. split.
    + rewrite length_append, Hcut. reflexivity.
    + pose proof (slice_to_append
        (Py.slice_to diff_output (Z.to_nat max_chars)) truncation_note) as Hkeep.
      by rewrite Hcut in Hkeep.
Qed.

Lemma truncate_diff_positive_limit_witness :
  truncate_diff "diff --git a/x b/x" 4
  = (true, Py.slice_to "diff --git a/x b/x" (Z.to_nat 4) +:+ truncation_note).
Proof.
  refine (proj1 (proj2 (truncate_diff_positive_limit "diff --git a/x b/x" 4 _) _));
    vm_compute; reflexivity.
Defined.

(** [X9]  The limit is never zero: a zero override counts as no override
    and a zero setting as no setting. The override wins when it is not
    zero, then the setting when it is not zero, then 15000. *)
Theorem max_chars_is_never_zero max_chars_override config_max_chars :
  resolve_max_chars max_chars_override config_max_chars <> 0%Z
  /\ (forall n, max_chars_override = Some n -> n <> 0%Z ->
        resolve_max_chars max_chars_override config_max_chars = n)
  /\ (truthy_int max_chars_override = false ->
      forall m, config_max_chars = Some m -> m <> 0%Z ->
        resolve_max_chars max_chars_override config_max_chars = m)
  /\ (truthy_int max_chars_override = false ->
      truthy_int config_max_chars = false ->
      resolve_max_chars max_chars_override config_max_chars = DEFAULT_MAX_CHARS).
Proof.
  unfold resolve_max_chars, truthy_int.
  destruct max_chars_override as [n|], config_max_chars as [m|];
    try destruct (Z.eqb_spec n 0); try destruct (Z.eqb_spec m 0);
    cbn [negb]; repeat split; try discriminate; try congruence;
    intros; simplify_eq; congruence.
Qed.

Lemma max_chars_is_never_zero_witness :
  resolve_max_chars (Some 0%Z) (Some 500%Z) = 500%Z.
Proof.
  refine (proj1 (proj2 (proj2 (max_chars_is_never_zero (Some 0%Z) (Some 500%Z))))
            eq_refl 500%Z eq_refl _).
  discriminate.
Defined.

(** [X10]  A negative limit cuts every diff, however short: what goes on
    is the diff without its last [-max_chars] characters (nothing of it
    when it is shorter than that) and the truncation note. *)
Theorem truncate_diff_negative_limit diff_output max_chars :
  (max_chars < 0)%Z ->
  truncate_diff diff_output max_chars
  = (true,
     Py.slice_to diff_output
       (String.length diff_output - Z.to_nat (- max_chars))
     +:+ truncation_note).
Proof.
  intros Hneg. unfold truncate_diff, slice_to_int.
  destruct (Z.gtb_spec (Z.of_nat (String.length diff_output)) max_chars); [|lia].
  destruct (Z.leb_spec 0 max_chars); [lia|].
  do 3 f_equal. lia.
Qed.

Lemma truncate_diff_negative_limit_witness :
  truncate_diff "abc" (-1) = (true, "ab" +:+ truncation_note).
Proof. exact (truncate_diff_negative_limit "abc" (-1) eq_refl). Defined.

(** * The external editor *)

Lemma join_app sep l1 l2 :
  l1 <> [] -> l2 <> [] ->
  Py.join sep (l1 ++ l2) = Py.join sep l1 +:+ sep +:+ Py.join sep l2.
Proof.
  unfold Py.join. intros H1 H2.
  induction l1 as [|x [|y l1] IH]; [done| |].
  - destruct l2 as [|z l2]; [done|]. reflexivity.
  - change (String.concat sep ((x :: y :: l1) ++ l2))
      with (x +:+ sep +:+ String.concat sep ((y :: l1) ++ l2)).
    change (String.concat sep (x :: y :: l1))
      with (x +:+ sep +:+ String.concat sep (y :: l1)).
    rewrite IH by done. by rewrite !append_assoc.
Qed.

Lemma rstrip_all_space w : all_space w = true -> Py.rstrip w = "".
Proof.
  intros Hw. apply truthy_false. by rewrite truthy_rstrip, Hw.
Qed.

Lemma rstrip_append_space s w :
  all_space w = true -> Py.rstrip (s +:+ w) = Py.rstrip s.
Proof.
  intros Hw. induction s as [|c s IH]; [by apply rstrip_all_space|].
  rewrite append_String. simpl. by rewrite IH.
Qed.

(** Whitespace behind a text does not change what is left after trimming. *)
Lemma strip_append_space s w :
  all_space w = true -> Py.strip (s +:+ w) = Py.strip s.
Proof.
  intros Hw. unfold Py.strip. induction s as [|c s IH].
  - change ("" +:+ w) with w. simpl.
    apply truthy_false. by rewrite truthy_rstrip, all_space_lstrip, Hw.
  - rewrite append_String. simpl. destruct (Py.isspace c); [exact IH|].
    by rewrite <- append_String, rstrip_append_space.
Qed.

Lemma splitlines_nil s : splitlines s = [] -> s = "".
Proof.
  destruct s as [|c s]; [reflexivity|]. simpl.
  destruct (is_line_boundary c); [discriminate|].
  by destruct (splitlines s).
Qed.

(** A line feed ends the line and the rest is split on its own. *)
Lemma splitlines_line_feed c s :
  nat_of_ascii c = 10 -> splitlines (String c s) = "" :: splitlines s.
Proof.
  intros Hc. simpl. unfold is_line_boundary. rewrite Hc. simpl.
  by destruct s.
Qed.

(** A character that is no boundary joins the first line of the rest. *)
Lemma splitlines_char c s :
  is_line_boundary c = false ->
  splitlines (String c s)
  = match splitlines s with
    | [] => [String c ""]
    | line :: lines => String c line :: lines
    end.
Proof. intros Hc. simpl. by rewrite Hc. Qed.

Lemma only_line_feeds_cons c s :
  only_line_feeds (String c s) = true ->
  (nat_of_ascii c = 10 \/ is_line_boundary c = false)
  /\ only_line_feeds s = true.
Proof.
  simpl. intros H. apply andb_true_iff in H as (Hc & Hs). split; [|exact Hs].
  apply orb_true_iff in Hc as [Hc | Hc].
  - right. by apply negb_true_iff.
  - left. by apply Nat.eqb_eq.
Qed.

Lemma line_feed_is_boundary c : nat_of_ascii c = 10 -> is_line_boundary c = true.
Proof. intros Hc. unfold is_line_boundary. by rewrite Hc. Qed.

(** The lines of a text whose boundaries are line feeds, a line feed and a
    further text are the lines up to that line feed and the lines of the
    further text. *)
Lemma splitlines_append s t :
  only_line_feeds s = true ->
  splitlines (s +:+ Py.nl +:+ t) = splitlines (s +:+ Py.nl) ++ splitlines t.
Proof.
  intros Hs. induction s as [|c s IH].
  - change ("" +:+ Py.nl +:+ t) with (String (ascii_of_nat 10) t).
    by rewrite splitlines_line_feed.
  - apply only_line_feeds_cons in Hs as ([Hc | Hc] & Hs).
    + rewrite !append_String, !splitlines_line_feed by exact Hc.
      by rewrite IH.
    + rewrite !append_String, !splitlines_char by exact Hc.
      rewrite IH by exact Hs.
      destruct (splitlines (s +:+ Py.nl)) as [|line lines] eqn:Hlines;
        [|reflexivity].
      apply splitlines_nil in Hlines. by destruct s.
Qed.

(** Joining those lines gives the text back. *)
Lemma join_splitlines s :
  only_line_feeds s = true -> Py.join Py.nl (splitlines (s +:+ Py.nl)) = s.
Proof.
  intros Hs. induction s as [|c s IH]; [reflexivity|].
  assert (Hne : splitlines (s +:+ Py.nl) <> []).
  { intros Hnil. apply splitlines_nil in Hnil. by destruct s. }
  apply only_line_feeds_cons in Hs as ([Hc | Hc] & Hs);
    specialize (IH Hs); rewrite append_String.
  - rewrite splitlines_line_feed by exact Hc.
    destruct (splitlines (s +:+ Py.nl)) as [|line lines]; [done|].
    change (Py.join Py.nl ("" :: line :: lines))
      with (Py.nl +:+ Py.join Py.nl (line :: lines)).
    rewrite IH. change (Py.nl +:+ s) with (String (ascii_of_nat 10) s).
    f_equal. by rewrite <- Hc, ascii_nat_embedding.
  - rewrite splitlines_char by exact Hc.
    destruct (splitlines (s +:+ Py.nl)) as [|line [|line' lines]]; [done| |].
    + change (Py.join Py.nl [String c line]) with (String c line). f_equal.
      exact IH.
    + change (Py.join Py.nl (String c line :: line' :: lines))
        with (String c (line +:+ Py.nl +:+ Py.join Py.nl (line' :: lines))).
      f_equal. exact IH.
Qed.

Lemma startswith_other c line :
  nat_of_ascii c <> 35 -> startswith (String c line) "#" = false.
Proof.
  intros Hc. unfold startswith. cbn [String.prefix].
  destruct (ascii_dec "#" c) as [<-|]; [|reflexivity].
  exfalso. by apply Hc.
Qed.

(** None of those lines is a comment line when no [#] begins a line. *)
Lemma splitlines_no_comment s : forall at_line_start,
  only_line_feeds s = true -> no_comment_line at_line_start s = true ->
  Forall (fun line => startswith line "#" = false) (tl (splitlines (s +:+ Py.nl)))
  /\ (at_line_start = true ->
      Forall (fun line => startswith line "#" = false) (splitlines (s +:+ Py.nl))).
Proof.
  induction s as [|c s IH]; intros at_line_start Hs Hno.
  - split; [constructor|]. intros _. repeat constructor.
  - apply only_line_feeds_cons in Hs as (Hc & Hs).
    simpl in Hno. apply andb_true_iff in Hno as (Hhash & Hno).
    rewrite append_String. destruct Hc as [Hc | Hc].
    + rewrite splitlines_line_feed by exact Hc.
      rewrite Hc in Hno. destruct (IH true Hs Hno) as (_ & Hall).
      split; [exact (Hall eq_refl)|]. intros _. constructor; [reflexivity|].
      exact (Hall eq_refl).
    + rewrite splitlines_char by exact Hc.
      assert (Hnot_lf : (nat_of_ascii c =? 10) = false).
      { apply Nat.eqb_neq. intros Hlf.
        by rewrite (line_feed_is_boundary c Hlf) in Hc. }
      rewrite Hnot_lf in Hno. destruct (IH false Hs Hno) as (Htail & _).
      destruct (splitlines (s +:+ Py.nl)) as [|line lines];
        (split; [first [constructor | exact Htail]|]); intros ->;
        cbn [andb negb] in Hhash; apply negb_true_iff, Nat.eqb_neq in Hhash.
      * repeat constructor. by apply startswith_other.
      * constructor; [|exact Htail]. by apply startswith_other.
Qed.

Lemma filter_all {A} (f : A -> bool) l :
  Forall (fun x => f x = true) l -> List.filter f l = l.
Proof.
  induction 1 as [|x l Hx _ IH]; [reflexivity|]. simpl. by rewrite Hx, IH.
Qed.

(** The text left of a file that still ends with the help text: the text
    above it, trimmed, when that text has line feeds for line boundaries
    and no comment line. *)
Lemma without_comment_lines_unchanged s :
  only_line_feeds s = true -> no_comment_line true s = true ->
  without_comment_lines (s +:+ Py.nl +:+ help_text) = Py.strip s.
Proof.
  intros Hs Hno. unfold without_comment_lines.
  rewrite splitlines_append by exact Hs.
  rewrite List.filter_app.
  replace (List.filter _ (splitlines help_text)) with [""]
    by (vm_compute; reflexivity).
  rewrite filter_all.
  - rewrite join_app; [| |done].
    + rewrite join_splitlines by exact Hs.
      change (Py.join Py.nl [""]) with "". rewrite append_empty_r.
      by apply strip_append_space.
    + intros Hnil. apply splitlines_nil in Hnil. by destruct s.
  - destruct (splitlines_no_comment s true Hs Hno) as (_ & Hall).
    eapply Forall_impl; [exact (Hall eq_refl)|].
    intros line Hline. cbn beta. by rewrite Hline.
Qed.

(** [X11]  The external editor hands back a text only when the editor
    exited with code 0, and the text is then what the file holds outside
    its comment lines, trimmed and not empty: a file with nothing but
    comments and blank space gives no text, and neither does any other
    exit code. *)
Theorem edited_text_is_trimmed_and_not_empty initial_text run_editor text :
  snd (edit_with_external_editor initial_text run_editor)
    = EditReturned (Some text) ->
  text <> "" /\ Py.strip text = text
  /\ exists content,
       run_editor (initial_text +:+ Py.nl +:+ help_text) = EditorExited 0 content
       /\ text = without_comment_lines content.
Proof.
  unfold edit_with_external_editor.
  destruct (run_editor _) as [|returncode content]; [discriminate|].
  destruct (Z.eqb_spec returncode 0) as [->|]; cbn [negb snd]; [|discriminate].
  destruct (Py.truthy (without_comment_lines content)) eqn:Htext;
    [|discriminate].
  intros [= <-]. split; [by apply truthy_true|]. split.
  - unfold without_comment_lines. apply strip_idem.
  - by exists content.
Qed.

Lemma edited_text_is_trimmed_and_not_empty_witness :
  "fix: bug" <> "" /\ Py.strip "fix: bug" = "fix: bug"
  /\ exists content,
       EditorExited 0 ("# note" +:+ Py.nl +:+ " fix: bug " +:+ Py.nl)
       = EditorExited 0 content
       /\ "fix: bug" = without_comment_lines content.
Proof.
  apply (edited_text_is_trimmed_and_not_empty "draft"
    (fun _ => EditorExited 0 ("# note" +:+ Py.nl +:+ " fix: bug " +:+ Py.nl))).
  vm_compute. reflexivity.
Defined.

(** [X12]  When the editor exits with code 0 and leaves the file as it
    was written, the message comes back trimmed, or no text when the
    message was blank, provided the message has line feeds for line
    boundaries and none of its lines begins with [#]. *)
Theorem unchanged_file_returns_message initial_text run_editor :
  run_editor (initial_text +:+ Py.nl +:+ help_text)
    = EditorExited 0 (initial_text +:+ Py.nl +:+ help_text) ->
  only_line_feeds initial_text = true ->
  no_comment_line true initial_text = true ->
  edit_with_external_editor initial_text run_editor
  = (None,
     EditReturned (if Py.truthy (Py.strip initial_text)
                   then Some (Py.strip initial_text) else None)).
Proof.
  intros Hrun Hs Hno. unfold edit_with_external_editor.
  rewrite Hrun. cbn [Z.eqb negb].
  by rewrite without_comment_lines_unchanged.
Qed.

Lemma unchanged_file_returns_message_witness :
  edit_with_external_editor
    ("fix: bug #12" +:+ Py.nl +:+ Py.nl +:+ "Closes the gap. ")
    (fun file => EditorExited 0 file)
  = (None,
     EditReturned
       (if Py.truthy (Py.strip ("fix: bug #12" +:+ Py.nl +:+ Py.nl
                                +:+ "Closes the gap. "))
        then Some (Py.strip ("fix: bug #12" +:+ Py.nl +:+ Py.nl
                             +:+ "Closes the gap. "))
        else None)).
Proof.
  apply (unchanged_file_returns_message
    ("fix: bug #12" +:+ Py.nl +:+ Py.nl +:+ "Closes the gap. ")
    (fun file => EditorExited 0 file)); reflexivity.
Defined.

(** * The history as one text *)

(** [X13]  The text a model without [chat] is prompted with is never the
    placeholder for an empty history: it is the query under its [User:]
    label, below the earlier history when there is one. *)
Theorem formatted_history_ends_with_query tpl diff st q :
  format_chat_history_for_prompt (tl (messages_for_llm tpl diff st q))
  = match chat_history st with
    | [] => "User: " +:+ q
    | _ =>
        format_chat_history_for_prompt (chat_history st)
        +:+ Py.nl +:+ "User: " +:+ q
    end.
Proof.
  unfold messages_for_llm. cbn [tl].
  destruct (chat_history st) as [|m history]; [reflexivity|].
  unfold format_chat_history_for_prompt. cbn [app].
  change (m :: history ++ [{| msg_role := user; msg_content := q |}])
    with ((m :: history) ++ [{| msg_role := user; msg_content := q |}]).
  rewrite map_app, join_app by done. reflexivity.
Qed.

(** * Prompt styles *)

(** [X14]  [get_system_prompt] never returns an empty prompt, and it fails
    in one case only: a style was asked for by name, no system prompt was
    given over it, and the style has no text or an empty one. *)
Theorem system_prompt_is_never_empty
    store config prompt_style_override system_override :
  match get_system_prompt store config prompt_style_override system_override with
  | SystemPrompt text => text <> ""
  | PromptStyleNotFound prompt_style =>
      prompt_style_override = Some prompt_style
      /\ prompt_style <> ""
      /\ Py.truthy_opt system_override = false
      /\ usable_prompt store (Some prompt_style) = None
  end.
Proof.
  unfold get_system_prompt, usable_prompt, Py.truthy_opt.
  repeat case_match; simplify_eq; try congruence;
    repeat split; try congruence; by apply truthy_true.
Qed.

(** [X15]  Without a system prompt and a style given with the command,
    [get_system_prompt] never fails: it returns the text of the configured
    style, else of the style under the legacy key, else of the default
    style, else the built-in text, a style counting only when it has a
    text that is not empty. A system prompt given with the command beats
    them all, and a style given with the command beats the configuration. *)
Theorem system_prompt_precedence
    store config prompt_style_override system_override :
  (Py.truthy_opt system_override = false ->
   Py.truthy_opt prompt_style_override = false ->
   get_system_prompt store config prompt_style_override system_override
   = SystemPrompt
       (default DEFAULT_GIT_COMMIT_SYSTEM_PROMPT
          (first_some [usable_prompt store (config !! "prompt");
                       usable_prompt store (config !! "prompt-style");
                       usable_prompt store (Some DEFAULT_PROMPT_STYLE)])))
  /\ (forall text, system_override = Some text -> text <> "" ->
        get_system_prompt store config prompt_style_override system_override
        = SystemPrompt text)
  /\ (Py.truthy_opt system_override = false ->
      forall content, usable_prompt store prompt_style_override = Some content ->
        get_system_prompt store config prompt_style_override system_override
        = SystemPrompt content).
Proof.
  unfold get_system_prompt, usable_prompt, Py.truthy_opt.
  split; [|split].
  - intros Hsys Hstyle. cbn [first_some].
    repeat case_match; simplify_eq; try done.
  - intros text -> Htext. apply truthy_true in Htext. by rewrite Htext.
  - intros Hsys content Hcontent.
    repeat case_match; simplify_eq; try done.
Qed.

Lemma system_prompt_precedence_witness :
  get_system_prompt
    {| prompts_dir := {["detailed" := " Write more. "]}; package_prompts := None |}
    {["prompt" := "missing"; "prompt-style" := "detailed"]} None (Some "")
  = SystemPrompt "Write more.".
Proof.
  exact (proj1 (system_prompt_precedence
    {| prompts_dir := {["detailed" := " Write more. "]}; package_prompts := None |}
    {["prompt" := "missing"; "prompt-style" := "detailed"]} None (Some ""))
    eq_refl eq_refl).
Defined.

Lemma install_prompts_lookup package names : forall dir name,
  foldl (install_prompt package) dir names !! name
  = match dir !! name with
    | Some text => Some text
    | None => if bool_decide (name ∈ names) then package !! name else None
    end.
Proof.
  induction names as [|n names IH]; intros dir name; cbn [foldl].
  - destruct (dir !! name); [reflexivity|].
    by rewrite bool_decide_eq_false_2 by apply not_elem_of_nil.
  - rewrite IH. unfold install_prompt.
    destruct (decide (name = n)) as [->|Hne].
    + rewrite (bool_decide_eq_true_2 (n ∈ n :: names)) by (apply elem_of_cons; by left).
      destruct (dir !! n) as [text|] eqn:Hn; [by rewrite Hn|].
      destruct (package !! n) as [text|] eqn:Hp.
      * by rewrite lookup_insert_eq.
      * rewrite Hn. by case_bool_decide.
    + assert (Hin : bool_decide (name ∈ n :: names) = bool_decide (name ∈ names)).
      { apply bool_decide_ext. rewrite elem_of_cons.
        split; [by intros [?|?] | by right]. }
      rewrite Hin.
      destruct (dir !! n); [reflexivity|].
      destruct (package !! n); [|reflexivity].
      by rewrite lookup_insert_ne.
Qed.

Lemma ensure_prompts_installed_content store name :
  get_prompt_content (ensure_prompts_installed store) name
  = get_prompt_content store name.
Proof.
  unfold ensure_prompts_installed, get_prompt_content.
  destruct (package_prompts store) as [package|] eqn:Hpackage;
    [|by rewrite Hpackage].
  cbn [prompts_dir package_prompts]. rewrite install_prompts_lookup.
  destruct (prompts_dir store !! name); [reflexivity|].
  case_bool_decide; [|reflexivity]. by destruct (package !! name).
Qed.

(** [X16]  Installing the packaged prompt files overwrites no file that
    is there and changes the text of no style: every name resolves to the
    same prompt text after the installation as before. *)
Theorem ensure_prompts_installed_keeps_prompts store name :
  get_prompt_content (ensure_prompts_installed store) name
  = get_prompt_content store name
  /\ (forall text, prompts_dir store !! name = Some text ->
        prompts_dir (ensure_prompts_installed store) !! name = Some text).
Proof.
  unfold ensure_prompts_installed, get_prompt_content.
  destruct (package_prompts store) as [package|] eqn:Hpackage.
  - cbn [prompts_dir package_prompts]. rewrite install_prompts_lookup. split.
    + destruct (prompts_dir store !! name); [reflexivity|].
      case_bool_decide; [|reflexivity]. by destruct (package !! name).
    + by intros text ->.
  - rewrite Hpackage. by split.
Qed.

Lemma ensure_prompts_installed_keeps_prompts_witness :
  prompts_dir
    (ensure_prompts_installed
       {| prompts_dir := {["custom" := "My own prompt."]};
          package_prompts := Some {["custom" := "Packaged."; "minimal" := "Short."]} |})
    !! "custom"
  = Some "My own prompt.".
Proof.
  exact (proj2 (ensure_prompts_installed_keeps_prompts
    {| prompts_dir := {["custom" := "My own prompt."]};
       package_prompts := Some {["custom" := "Packaged."; "minimal" := "Short."]} |}
    "custom") "My own prompt." eq_refl).
Defined.

(** [X17]  Installing the prompt files a second time changes nothing. *)
Theorem ensure_prompts_installed_idempotent store :
  ensure_prompts_installed (ensure_prompts_installed store)
  = ensure_prompts_installed store.
Proof.
  unfold ensure_prompts_installed.
  destruct (package_prompts store) as [package|] eqn:Hpackage;
    cbn [package_prompts prompts_dir]; [|by rewrite Hpackage].
  f_equal. apply map_eq. intros name. rewrite !install_prompts_lookup.
  destruct (prompts_dir store !! name); [reflexivity|].
  case_bool_decide; [|reflexivity]. by destruct (package !! name).
Qed.

Lemma available_builtin_other store styles : forall available name,
  (forall desc, (name, desc) ∈ styles ->
     Py.truthy_opt (get_prompt_content store name) = false) ->
  foldl (add_builtin_style store) available styles !! name
  = available !! name.
Proof.
  induction styles as [|[n d] styles IH]; intros available name Hname;
    [reflexivity|].
  cbn [foldl]. rewrite IH.
  - unfold add_builtin_style.
    destruct (Py.truthy_opt (get_prompt_content store n)) eqn:Hn; [|reflexivity].
    apply lookup_insert_ne. intros ->.
    rewrite (Hname d) in Hn; [discriminate|]. apply elem_of_cons. by left.
  - intros desc Hin. apply (Hname desc). apply elem_of_cons. by right.
Qed.

Lemma available_builtin_listed store styles : forall available name desc,
  NoDup (map fst styles) -> (name, desc) ∈ styles ->
  Py.truthy_opt (get_prompt_content store name) = true ->
  foldl (add_builtin_style store) available styles !! name
  = Some desc.
Proof.
  induction styles as [|[n d] styles IH]; intros available name desc Hnodup Hin Hok.
  - by apply not_elem_of_nil in Hin.
  - cbn [foldl]. cbn [map fst] in Hnodup. apply NoDup_cons in Hnodup as (Hn & Hnodup).
    apply elem_of_cons in Hin as [[= -> ->] | Hin].
    + unfold add_builtin_style at 2. rewrite Hok, available_builtin_other.
      * apply lookup_insert_eq.
      * intros desc Hin. exfalso. apply Hn.
        apply list_elem_of_fmap. by exists (n, desc).
    + by apply IH.
Qed.

Lemma BUILTIN_PROMPT_STYLES_NoDup : NoDup (map fst BUILTIN_PROMPT_STYLES).
Proof. apply (bool_decide_unpack _). vm_compute. exact I. Qed.

Lemma custom_prompt_lookup store key desc :
  (set_to_map (fun name => (name, "Custom prompt: " +:+ name))
              (globbed_stems store) : gmap string string) !! key = Some desc
  <-> desc = "Custom prompt: " +:+ key
      /\ exists name, is_Some (prompts_dir store !! name)
                      /\ glob_stem name = Some key.
Proof.
  rewrite lookup_set_to_map by (by intros ? ? _ _ [= ->]).
  unfold globbed_stems. split.
  - intros (stem & Hstem & [= <- <-]). split; [reflexivity|].
    apply elem_of_set_omap in Hstem as (name & Hname & Hglob).
    exists name. split; [by apply elem_of_dom | exact Hglob].
  - intros (-> & name & Hname & Hglob). exists key. split; [|reflexivity].
    apply elem_of_set_omap. exists name. split; [by apply elem_of_dom | exact Hglob].
Qed.

(** [X18]  What [list_available_prompts] lists, and under which
    description: a built-in style that has a prompt text that is not empty,
    under its built-in description; the stem of every file found in the
    prompts directory, whatever the file holds, as a custom prompt when it
    is not listed as a built-in style; and nothing else. *)
Theorem available_prompts_listing store key :
  (forall desc, (key, desc) ∈ BUILTIN_PROMPT_STYLES ->
     Py.truthy_opt (get_prompt_content store key) = true ->
     list_available_prompts store !! key = Some desc)
  /\ (forall name, is_Some (prompts_dir store !! name) ->
        glob_stem name = Some key ->
        is_Some (list_available_prompts store !! key))
  /\ (forall desc, list_available_prompts store !! key = Some desc ->
        ((key, desc) ∈ BUILTIN_PROMPT_STYLES
         /\ Py.truthy_opt (get_prompt_content store key) = true)
        \/ (desc = "Custom prompt: " +:+ key
            /\ exists name, is_Some (prompts_dir store !! name)
                            /\ glob_stem name = Some key)).
Proof.
  unfold list_available_prompts.
  set (available := foldl (add_builtin_style store) ∅ BUILTIN_PROMPT_STYLES).
  split; [|split].
  - intros desc Hin Hok. apply lookup_union_Some_l.
    by apply available_builtin_listed; [apply BUILTIN_PROMPT_STYLES_NoDup|..].
  - intros name Hname Hglob.
    destruct (available !! key) as [desc|] eqn:Hav.
    + exists desc. by apply lookup_union_Some_l.
    + exists ("Custom prompt: " +:+ key). rewrite lookup_union_r by exact Hav.
      apply custom_prompt_lookup. split; [reflexivity|]. by exists name.
  - intros desc Hdesc.
    assert (Hcustom : available !! key = None ->
      desc = "Custom prompt: " +:+ key
      /\ exists name, is_Some (prompts_dir store !! name)
                      /\ glob_stem name = Some key).
    { intros Hav. rewrite lookup_union_r in Hdesc by exact Hav.
      by apply custom_prompt_lookup. }
    destruct (Py.truthy_opt (get_prompt_content store key)) eqn:Hok.
    + destruct (decide (key ∈ map fst BUILTIN_PROMPT_STYLES)) as [Hin|Hnotin].
      * apply list_elem_of_fmap in Hin as ([n d] & -> & Hin). cbn [fst] in *.
        left. split; [|reflexivity].
        pose proof (available_builtin_listed store BUILTIN_PROMPT_STYLES ∅ n d
                      BUILTIN_PROMPT_STYLES_NoDup Hin Hok) as Hlisted.
        fold available in Hlisted.
        rewrite (lookup_union_Some_l _ _ _ _ Hlisted) in Hdesc.
        by injection Hdesc as <-.
      * right. apply Hcustom. unfold available.
        rewrite available_builtin_other; [apply lookup_empty|].
        intros d Hin. exfalso. apply Hnotin.
        apply list_elem_of_fmap. by exists (key, d).
    + right. apply Hcustom. unfold available.
      rewrite available_builtin_other; [apply lookup_empty|]. done.
Qed.

(** * The [config] subcommand *)

Lemma lower_internal_env e :
  (String.eqb (Py.lower e) "internal" = false -> e <> "internal")
  /\ (String.eqb (Py.lower e) "env" = false -> e <> "env").
Proof. split; intros He ->; discriminate He. Qed.

(** What is written when the subcommand saves: the settings of the file
    with the given ones put in, in the order model, prompt, editor. *)
Lemma config_command_saved store config options confirm_reset saved :
  config_command store config options confirm_reset = SaveConfig saved ->
  let with_model :=
    match model_config options with
    | Some model => <["model" := model]> (settings config)
    | None => settings config
    end in
  let with_prompt :=
    match prompt_config options with
    | Some prompt =>
        delete "system" (delete "prompt-style" (<["prompt" := prompt]> with_model))
    | None => with_model
    end in
  settings saved
  = match editor_config options with
    | Some editor => <["editor" := editor_setting editor]> with_prompt
    | None => with_prompt
    end
  /\ max_chars_setting saved
     = match max_chars_config options with
       | Some max_chars => Some max_chars
       | None => max_chars_setting config
       end
  /\ (forall prompt, prompt_config options = Some prompt ->
        Py.truthy_opt (get_prompt_content store prompt) = true)
  /\ view options = false /\ reset options = false /\ show_prompt options = false.
Proof.
  unfold config_command.
  destruct (view options); [discriminate|]. cbn [orb].
  destruct (negb _); [discriminate|].
  destruct (show_prompt options); [discriminate|].
  destruct (reset options); [by destruct confirm_reset|].
  destruct (model_config options) as [model|];
    (destruct (prompt_config options) as [prompt|];
     [rewrite ensure_prompts_installed_content;
      destruct (Py.truthy_opt (get_prompt_content store prompt)) eqn:Hprompt;
      cbn [negb]; [|discriminate]|]);
    destruct (editor_config options) as [editor|];
    destruct (max_chars_config options) as [max_chars|];
    cbn [settings max_chars_setting];
    try discriminate; intros [= <-]; cbn [settings max_chars_setting];
    repeat split; try reflexivity; try (intros ? [= <-]; exact Hprompt);
    discriminate.
Qed.

(** [X19]  The [config] subcommand never ends in its help text, and
    options that are given but empty or zero count as not given: with
    nothing else asked for, the configuration is shown and nothing is
    written. *)
Theorem config_command_shows_view_not_help store config options confirm_reset :
  config_command store config options confirm_reset <> ShowHelp
  /\ (reset options = false -> show_prompt options = false ->
      Py.truthy_opt (model_config options) = false ->
      Py.truthy_opt (prompt_config options) = false ->
      Py.truthy_opt (editor_config options) = false ->
      truthy_int (max_chars_config options) = false ->
      config_command store config options confirm_reset = ShowView).
Proof.
  unfold config_command. split.
  - destruct (view options); [discriminate|]. cbn [orb].
    destruct (reset options); [by destruct confirm_reset, (show_prompt options)|].
    destruct (show_prompt options);
      [by rewrite !orb_true_r|]. rewrite orb_false_r. cbn [orb].
    destruct (model_config options) as [model|],
             (prompt_config options) as [prompt|],
             (editor_config options) as [editor|],
             (max_chars_config options) as [max_chars|];
      cbn [Py.truthy_opt truthy_int orb negb];
      repeat match goal with
             | |- context [Py.truthy ?s] => destruct (Py.truthy s)
             | |- context [(?n =? 0)%Z] => destruct (n =? 0)%Z
             | |- context [Py.truthy_opt ?o] => destruct (Py.truthy_opt o)
             end;
      cbn [orb negb]; discriminate.
  - intros -> -> -> -> -> ->. cbn [orb negb]. by rewrite orb_true_r.
Qed.

(** [X20]  A prompt style without a text that is not empty is refused,
    and with it everything else given in the same call: nothing is
    written, whatever model, editor or limit came along. *)
Theorem config_command_rejects_unknown_prompt
    store config options confirm_reset prompt :
  view options = false -> show_prompt options = false -> reset options = false ->
  prompt_config options = Some prompt -> prompt <> "" ->
  usable_prompt store (Some prompt) = None ->
  config_command store config options confirm_reset = RejectPrompt prompt.
Proof.
  intros Hview Hshow Hreset Hprompt Hne Husable.
  apply truthy_true in Hne.
  assert (Hcontent : Py.truthy_opt (get_prompt_content store prompt) = false).
  { unfold usable_prompt in Husable. rewrite Hne in Husable.
    destruct (get_prompt_content store prompt) as [content|]; [|reflexivity].
    cbn [Py.truthy_opt]. by destruct (Py.truthy content). }
  unfold config_command.
  rewrite Hview, Hshow, Hreset, Hprompt, ensure_prompts_installed_content, Hcontent.
  cbn [Py.truthy_opt orb negb]. rewrite Hne.
  rewrite orb_true_r. cbn [orb negb].
  by destruct (model_config options).
Qed.

Lemma config_command_rejects_unknown_prompt_witness :
  config_command
    {| prompts_dir := {["detailed" := "Write more."]}; package_prompts := None |}
    {| settings := ∅; max_chars_setting := None |}
    {| view := false; reset := false; model_config := Some "gpt-4";
       prompt_config := Some "terse"; editor_config := Some "vim";
       max_chars_config := None; show_prompt := false |}
    false
  = RejectPrompt "terse".
Proof.
  apply config_command_rejects_unknown_prompt;
    [reflexivity.. | discriminate | reflexivity].
Defined.

(** [X21]  The editor the subcommand saves is the editor
    [resolve_editor] finds afterwards: [internal] or [env] in any case
    selects that mode, and any other value is used as the command, as it
    was given. *)
Theorem config_command_saved_editor
    store config options confirm_reset saved editor env :
  config_command store config options confirm_reset = SaveConfig saved ->
  editor_config options = Some editor ->
  resolve_editor (settings saved) false env
  = if String.eqb (Py.lower editor) "internal" then ("internal", None)
    else if String.eqb (Py.lower editor) "env" then
      if Py.truthy_opt (get_editor_from_env env)
      then ("env", get_editor_from_env env) else ("internal", None)
    else ("command", Some editor).
Proof.
  intros Hsaved Heditor.
  destruct (config_command_saved _ _ _ _ _ Hsaved) as (Hsettings & _).
  rewrite Heditor in Hsettings. unfold resolve_editor.
  rewrite Hsettings, lookup_insert_eq. cbn [default from_option id andb].
  unfold editor_setting.
  destruct (lower_internal_env editor) as (Hint & Henv).
  destruct (String.eqb (Py.lower editor) "internal") eqn:Hi; [reflexivity|].
  destruct (String.eqb (Py.lower editor) "env") eqn:He; [reflexivity|].
  apply String.eqb_neq in Hint; [|reflexivity].
  apply String.eqb_neq in Henv; [|reflexivity].
  by rewrite Hint, Henv.
Qed.

Lemma config_command_saved_editor_witness :
  resolve_editor
    (<["editor" := editor_setting "ENV"]> (∅ : gmap string string)) false
    {| environ := {["VISUAL" := "nano"]}; git_config_core_editor := GitNotFound |}
  = ("env", Some "nano").
Proof.
  exact (config_command_saved_editor
    {| prompts_dir := ∅; package_prompts := None |}
    {| settings := ∅; max_chars_setting := None |}
    {| view := false; reset := false; model_config := None;
       prompt_config := None; editor_config := Some "ENV";
       max_chars_config := None; show_prompt := false |}
    false
    {| settings := <["editor" := editor_setting "ENV"]> ∅;
       max_chars_setting := None |}
    "ENV"
    {| environ := {["VISUAL" := "nano"]}; git_config_core_editor := GitNotFound |}
    eq_refl eq_refl).
Defined.

(** [X22]  The prompt style the subcommand saves is the one
    [get_system_prompt] uses afterwards when the command line gives
    neither a system prompt nor a style: the style has a text, the legacy
    keys are gone from the settings, and that text is the system prompt. *)
Theorem config_command_saved_prompt
    store config options confirm_reset saved prompt :
  config_command store config options confirm_reset = SaveConfig saved ->
  prompt_config options = Some prompt ->
  prompt <> "" ->
  settings saved !! "prompt-style" = None
  /\ settings saved !! "system" = None
  /\ exists content,
       get_prompt_content store prompt = Some content /\ content <> ""
       /\ get_system_prompt (ensure_prompts_installed store) (settings saved)
            None None
          = SystemPrompt content.
Proof.
  intros Hsaved Hprompt Hne.
  destruct (config_command_saved _ _ _ _ _ Hsaved) as (Hsettings & _ & Hok & _).
  specialize (Hok prompt Hprompt). rewrite Hprompt in Hsettings.
  assert (Hkeys : settings saved !! "prompt" = Some prompt
                  /\ settings saved !! "prompt-style" = None
                  /\ settings saved !! "system" = None).
  { rewrite Hsettings.
    destruct (editor_config options); by simplify_map_eq. }
  destruct Hkeys as (Hkey & Hlegacy & Hsystem).
  split; [exact Hlegacy|]. split; [exact Hsystem|].
  destruct (get_prompt_content store prompt) as [content|] eqn:Hcontent;
    [|discriminate].
  cbn [Py.truthy_opt] in Hok. exists content.
  split; [reflexivity|]. split; [by apply truthy_true|].
  unfold get_system_prompt. rewrite Hkey.
  apply truthy_true in Hne.
  by rewrite Hne, ensure_prompts_installed_content, Hcontent, Hok.
Qed.

Lemma config_command_saved_prompt_witness :
  settings
    {| settings :=
         delete "system"
           (delete "prompt-style"
              (<["prompt" := "detailed"]>
                 ({["prompt-style" := "minimal"]} : gmap string string)));
       max_chars_setting := None |} !! "prompt-style" = None.
Proof.
  refine (proj1 (config_command_saved_prompt
    {| prompts_dir := {["detailed" := "Write more."]}; package_prompts := None |}
    {| settings := {["prompt-style" := "minimal"]}; max_chars_setting := None |}
    {| view := false; reset := false; model_config := None;
       prompt_config := Some "detailed"; editor_config := None;
       max_chars_config := None; show_prompt := false |}
    false _ "detailed" _ eq_refl _)); [vm_compute; reflexivity | discriminate].
Defined.

Lemma config_command_shows_view_not_help_witness :
  config_command
    {| prompts_dir := ∅; package_prompts := None |}
    {| settings := ∅; max_chars_setting := Some 9000%Z |}
    {| view := false; reset := false; model_config := Some "";
       prompt_config := None; editor_config := None;
       max_chars_config := Some 0%Z; show_prompt := false |}
    false
  = ShowView.
Proof.
  exact (proj2 (config_command_shows_view_not_help
    {| prompts_dir := ∅; package_prompts := None |}
    {| settings := ∅; max_chars_setting := Some 9000%Z |}
    {| view := false; reset := false; model_config := Some "";
       prompt_config := None; editor_config := None;
       max_chars_config := Some 0%Z; show_prompt := false |}
    false) eq_refl eq_refl eq_refl eq_refl eq_refl eq_refl).
Defined.

Lemma available_prompts_listing_witness :
  list_available_prompts
    {| prompts_dir := {["minimal" := "Short."; "team" := ""]};
       package_prompts := None |} !! "minimal"
  = Some "Short single-line messages only".
Proof.
  refine (proj1 (available_prompts_listing
    {| prompts_dir := {["minimal" := "Short."; "team" := ""]};
       package_prompts := None |} "minimal")
    "Short single-line messages only" _ eq_refl).
  apply (bool_decide_unpack _). vm_compute. exact I.
Defined.

(** * From an accepted proposal to the result *)

Lemma parse_proposal_trimmed raw P :
  extracted_proposal_text (parse raw) = Some P -> Py.strip P = P.
Proof.
  unfold parse.
  destruct (Py.find raw PROPOSED_COMMIT_MARKER_START 0) as [si|];
    [|discriminate].
  destruct (Py.find raw PROPOSED_COMMIT_MARKER_END _) as [ei|];
    [|discriminate].
  cbn [extracted_proposal_text].
  destruct (Py.truthy _); [|discriminate]. intros [= <-]. apply strip_idem.
Qed.

(** [X23]  A proposal that is accepted and then applied is the result of
    the session: a chat turn whose proposal [P] is accepted, followed by
    an Apply that is confirmed, returns exactly [P], whatever the draft
    and the history were before. *)
Theorem accepted_proposal_is_applied
    tpl seed diff st env_chat env_apply rest q raw P yes1 yes2 :
  classify (chat_prompt env_chat) = ChatQuery q ->
  model_call env_chat (messages_for_llm tpl diff st q) = Responded raw ->
  extracted_proposal_text (parse raw) = Some P ->
  confirm_prompt env_chat = Entered yes1 -> answers_yes yes1 ->
  classify (chat_prompt env_apply) = Apply ->
  confirm_prompt env_apply = Entered yes2 -> answers_yes yes2 ->
  snd (chat_loop tpl seed diff st (env_chat :: env_apply :: rest)) = Returned P.
Proof.
  intros Hc Hmodel HP Hanswer1 Hyes1 Ha Hanswer2 Hyes2.
  apply answers_yes_test in Hyes1. apply answers_yes_test in Hyes2.
  rewrite chat_loop_step, (chat_turn_chat _ _ _ _ _ _ Hc).
  rewrite (chat_branch_answer _ _ _ _ _ _ _ _ _ Hmodel HP Hanswer1), Hyes1.
  rewrite chat_loop_step.
  destruct (chat_turn_apply tpl seed diff (accepted st q P) env_apply Ha)
    as (shown & ->).
  rewrite (apply_branch_answer _ _ _ yes2); [by rewrite Hyes2| |exact Hanswer2].
  cbn [accepted message_being_refined_in_chat].
  rewrite (parse_proposal_trimmed _ _ HP).
  exact (proj2 (parse_proposal_not_blank _ _ HP)).
Qed.

Lemma accepted_proposal_is_applied_witness :
  snd (chat_loop scenario_template "fix: bug" "diff" (initial_state "fix: bug")
         [scenario_chat (Entered " y");
          {| chat_prompt := Entered "/apply";
             model_call := fun _ => Failed "unused";
             confirm_prompt := Entered "" |}])
  = Returned scenario_proposal.
Proof.
  apply (accepted_proposal_is_applied
    scenario_template "fix: bug" "diff" (initial_state "fix: bug")
    (scenario_chat (Entered " y"))
    {| chat_prompt := Entered "/apply";
       model_call := fun _ => Failed "unused";
       confirm_prompt := Entered "" |}
    [] "make it more detailed" scenario_reply scenario_proposal " y" "");
    try (vm_compute; reflexivity); [left | right]; reflexivity.
Defined.

(** A built-in name whose file in the prompts directory is blank has no
    text and is listed as a custom prompt; the file [.txt], which the empty
    name is read from, is listed under the stem [.txt]. *)
Example blank_builtin_file_is_listed_as_custom :
  list_available_prompts
    {| prompts_dir := {["minimal" := "   "; "" := "Be brief."]};
       package_prompts := None |}
  = {["minimal" := "Custom prompt: minimal"; ".txt" := "Custom prompt: .txt"]}.
Proof. vm_compute. reflexivity. Qed.

(** * Replies without a pair of markers *)

(** [C4]  Handling a reply is a total function of the reply and raises
    nothing. For every reply that is not blank and has no start marker, or
    whose first start marker has no end marker behind it, it yields no
    proposal and one conversational segment, the whole reply trimmed, which
    is also the conversational text for the history. A blank reply does not
    reach the extraction: it yields no proposal and no segment, and an
    empty conversational text. *)
Theorem unpaired_reply_is_conversational raw :
  unpaired_markers raw ->
  (Py.strip raw <> "" ->
   snd (ask_model (Responded raw))
   = {| conversational_parts_to_print := [Py.strip raw];
        extracted_proposal_text := None;
        conversational_text_for_history_if_proposal_rejected := Py.strip raw |})
  /\ (Py.strip raw = "" ->
      snd (ask_model (Responded raw))
      = {| conversational_parts_to_print := [];
           extracted_proposal_text := None;
           conversational_text_for_history_if_proposal_rejected := "" |}).
Proof.
  intros Hunpaired. unfold ask_model. split.
  - intros Hraw. apply truthy_true in Hraw. rewrite Hraw. cbn [negb snd].
    by apply parse_unpaired_markers.
  - intros ->. reflexivity.
Qed.

Lemma unpaired_reply_is_conversational_witness :
  snd (ask_model (Responded (" A" +:+ PROPOSED_COMMIT_MARKER_START +:+ "B ")))
  = {| conversational_parts_to_print :=
         [Py.strip (" A" +:+ PROPOSED_COMMIT_MARKER_START +:+ "B ")];
       extracted_proposal_text := None;
       conversational_text_for_history_if_proposal_rejected :=
         Py.strip (" A" +:+ PROPOSED_COMMIT_MARKER_START +:+ "B ") |}.
Proof.
  refine (proj1 (unpaired_reply_is_conversational
    (" A" +:+ PROPOSED_COMMIT_MARKER_START +:+ "B ") _) _).
  - right. exists 2. split.
    + apply find_Some. vm_compute. reflexivity.
    + apply find_None; [discriminate | vm_compute; reflexivity].
  - vm_compute. discriminate.
Defined.

(** A reply of three spaces has no start marker, and handling it leaves no
    conversational segment at all, where the trimmed reply would be one
    empty segment: "for every reply without a pair of markers there is one
    segment, the trimmed reply" fails on blank replies. *)
Lemma blank_reply_has_no_segment :
  ~ (forall raw,
       unpaired_markers raw ->
       conversational_parts_to_print (snd (ask_model (Responded raw)))
       = [Py.strip raw]).
Proof.
  intros Hclaim.
  assert (Hunpaired : unpaired_markers "   ").
  { left. intros k.
    apply (find_None _ _ 0); [discriminate | vm_compute; reflexivity | lia]. }
  specialize (Hclaim "   " Hunpaired). vm_compute in Hclaim. discriminate Hclaim.
Qed.
